(** * The Kaggle e-commerce ETL pipeline (kaggle_etl_dag.py)

    A shallow embedding of the three stateful stages of the DAG
    ([load_data_to_mysql], [transform_data],
    [load_transformed_data_to_postgresql]) and of the run that chains them,
    followed by the properties of the specification.

    Modelling conventions.
    - A record handed from task to task through XCom is a Python dict:
      a [gmap string value].
    - A cell is NaN (what [read_csv] gives for an empty field and what
      pandas fills a missing field with), an integer, a float or a string.
      Integers are unbounded, floats are exact rationals and strings are
      strings of bytes: int64 overflow, float rounding, the non-finite
      floats and the digits and blanks of Unicode are outside the model,
      and the properties that depend on them are stated for [plain_key]s
      and for Costs that are no [is_infinity_literal].  Two numeric cells
      compare by value ([1 == 1.0]), as Python and pandas compare them.
    - A pandas frame is its set of column labels and its rows; the order of
      the columns is not kept, no property below depends on it.
    - The two tables are lists of rows.  The staging table returns the rows
      it was given; every statement of the upsert loop is committed when it
      is issued. *)

From Stdlib Require Import Ascii String QArith.
From stdpp Require Import gmap strings list fin_maps pretty.

Open Scope string_scope.
Open Scope list_scope.
Open Scope Z_scope.

(** ** Cells *)

Inductive value : Type :=
  | VNull
  | VInt (z : Z)
  | VFloat (q : Q)
  | VStr (s : string).

Definition isna (v : value) : bool :=
  match v with VNull => true | _ => false end.

(** [==] on two cells, with NaN matching NaN the way [isin] and
    [drop_duplicates] match it. *)
Definition value_eqb (v w : value) : bool :=
  match v, w with
  | VNull, VNull => true
  | VStr a, VStr b => String.eqb a b
  | VInt a, VInt b => Z.eqb a b
  | VInt a, VFloat q => Qeq_bool (inject_Z a) q
  | VFloat q, VInt b => Qeq_bool q (inject_Z b)
  | VFloat p, VFloat q => Qeq_bool p q
  | _, _ => false
  end.

(** The number a numeric cell stands for. *)
Definition number (v : value) : option Q :=
  match v with
  | VInt z => Some (inject_Z z)
  | VFloat q => Some q
  | _ => None
  end.

(** ** Exceptions and the result of a task *)

(** A [KeyError] names the labels that were not found: the one label of
    [df[c]], all the missing labels of [dropna(subset=...)]. *)
Inductive exn : Type :=
  | ValueError (msg : string)
  | KeyError (labels : list string)
  | StatementError (param : string).

Inductive result (A : Type) : Type :=
  | Ok (a : A)
  | Raise (e : exn).
Arguments Ok {A} a.
Arguments Raise {A} e.

Definition bind {A B : Type} (m : result A) (k : A → result B) : result B :=
  match m with
  | Ok a => k a
  | Raise e => Raise e
  end.

Notation "'let!' x ':=' m 'in' k" := (bind m (λ x, k))
  (at level 10, x name, m at level 100, k at level 200).

#[global] Instance Q_eq_dec : EqDecision Q.
Proof. solve_decision. Defined.
#[global] Instance value_eq_dec : EqDecision value.
Proof. solve_decision. Defined.
#[global] Instance exn_eq_dec : EqDecision exn.
Proof. solve_decision. Defined.
#[global] Instance result_eq_dec {A : Type} `{EqDecision A} :
  EqDecision (result A).
Proof. solve_decision. Defined.

(** ** Text *)

Definition is_whitespace (c : ascii) : bool :=
  let n := nat_of_ascii c in
  ((9 <=? n) && (n <=? 13) || (n =? 32))%nat.

Definition digit_of (c : ascii) : option Z :=
  let n := nat_of_ascii c in
  if ((48 <=? n) && (n <=? 57))%nat then Some (Z.of_nat n - 48) else None.

Fixpoint lstrip (s : string) : string :=
  match s with
  | String c s' => if is_whitespace c then lstrip s' else s
  | EmptyString => EmptyString
  end.

Definition strip (s : string) : string :=
  String.rev (lstrip (String.rev (lstrip s))).

(** The digits of a Python integer literal: decimal digits, where a single
    underscore may stand between two digits. *)
Fixpoint int_digits (acc : Z) (after_digit : bool) (s : string) : option Z :=
  match s with
  | EmptyString => if after_digit then Some acc else None
  | String c s' =>
      match digit_of c with
      | Some d => int_digits (10 * acc + d) true s'
      | None =>
          if Ascii.eqb c "_" && after_digit then int_digits acc false s'
          else None
      end
  end.

(** An optional sign in front of [body]. *)
Definition signed {A : Type} (body : string → option A) (neg : A → A)
    (s : string) : option A :=
  match s with
  | String "-" s' => neg <$> body s'
  | String "+" s' => body s'
  | _ => body s
  end.

(** [int(s)] for a string [s], base 10.  The strings of the model are
    strings of bytes and the digits and blanks read here are the ASCII
    ones: [int] also takes the decimal digits and the white space of
    Unicode, which [plain_text] below leaves out. *)
Definition int_of_string (s : string) : option Z :=
  signed (int_digits 0 false) Z.opp (strip s).

(** [int(x)] on a cell: what [Series.astype(int)] applies to each element.
    A float is truncated toward zero.  The integer is the exact one:
    [astype(int)] stores it in 64 bits, where a float from 2^63 on wraps
    and a longer literal raises [OverflowError], so the model is the code
    on the keys [in_int64] takes (see [plain_key]). *)
Definition py_int (v : value) : result Z :=
  match v with
  | VInt z => Ok z
  | VFloat q => Ok (Z.quot (Qnum q) (Z.pos (Qden q)))
  | VStr s =>
      match int_of_string s with
      | Some z => Ok z
      | None => Raise (ValueError "invalid literal for int() with base 10")
      end
  | VNull => Raise (ValueError "cannot convert float NaN to integer")
  end.

(** [str(n)] for an integer [n]. *)
Definition py_str (z : Z) : string := pretty z.

(** [.astype(int).astype(str)] on one element. *)
Definition astype_int_str (v : value) : result value :=
  let! z := py_int v in Ok (VStr (py_str z)).

(** The integers of [int64]. *)
Definition in_int64 (z : Z) : bool :=
  (- 2 ^ 63 <=? z) && (z <? 2 ^ 63).

(** Text of printable ASCII characters and the blanks of [is_whitespace]. *)
Definition plain_char (c : ascii) : bool :=
  let n := nat_of_ascii c in
  is_whitespace c || ((33 <=? n) && (n <=? 126))%nat.

Fixpoint plain_text (s : string) : bool :=
  match s with
  | EmptyString => true
  | String c s' => plain_char c && plain_text s'
  end.

(** The keys on which [py_int] is what [astype(int)] does: NaN, a number
    or plain text, and, where [int] gives an integer, one of [int64]. *)
Definition plain_key (v : value) : bool :=
  match v with VStr s => plain_text s | _ => true end
  && match py_int v with Ok z => in_int64 z | Raise _ => true end.

(** ** [pd.to_numeric(..., errors='coerce')] *)

(** A run of decimal digits: the number read so far, how many digits were
    read, and what follows. *)
Fixpoint span_digits (acc : Z) (n : nat) (s : string) : Z * nat * string :=
  match s with
  | String c s' =>
      match digit_of c with
      | Some d => span_digits (10 * acc + d) (S n) s'
      | None => (acc, n, s)
      end
  | EmptyString => (acc, n, s)
  end.

Definition exponent_digits (s : string) : option Z :=
  let '(e, n, rest) := span_digits 0 0 s in
  match n, rest with
  | S _, EmptyString => Some e
  | _, _ => None
  end.

(** [m * 10^e] as a rational. *)
Definition scale10 (m e : Z) : Q :=
  if 0 <=? e then inject_Z (m * 10 ^ e) else m # Z.to_pos (10 ^ (- e)).

(** An unsigned decimal literal: digits, an optional fraction, an optional
    exponent; a literal with neither fraction nor exponent is an integer. *)
Definition unsigned_number (s : string) : option value :=
  let '(ip, ni, r1) := span_digits 0 0 s in
  let '(point, (m, nf, r2)) :=
    match r1 with
    | String "." r => (true, span_digits ip 0 r)
    | _ => (false, (ip, 0%nat, r1))
    end in
  if (ni + nf =? 0)%nat then None
  else
    match r2 with
    | EmptyString =>
        Some (if point then VFloat (scale10 m (- Z.of_nat nf)) else VInt m)
    | String c r3 =>
        if Ascii.eqb c "e" || Ascii.eqb c "E" then
          e ← signed exponent_digits Z.opp r3;
          Some (VFloat (scale10 m (e - Z.of_nat nf)))
        else None
    end.

Definition negate (v : value) : value :=
  match v with
  | VInt z => VInt (- z)
  | VFloat q => VFloat (- q)
  | _ => v
  end.

(** The finite numbers [pd.to_numeric] reads.  It also reads the literals
    of infinity, [is_infinity_literal] below, to a float the model has no
    cell for: what is said of a string that is no number leaves them
    out. *)
Definition number_of_string (s : string) : option value :=
  signed unsigned_number negate (strip s).

Definition lower (c : ascii) : ascii :=
  let n := nat_of_ascii c in
  if ((65 <=? n) && (n <=? 90))%nat then ascii_of_nat (n + 32) else c.

Fixpoint lower_string (s : string) : string :=
  match s with
  | EmptyString => EmptyString
  | String c s' => String (lower c) (lower_string s')
  end.

(** [inf] and [infinity], in any case, with or without a sign. *)
Definition is_infinity_literal (s : string) : bool :=
  let body :=
    match lower_string (strip s) with
    | String "-" t => t
    | String "+" t => t
    | t => t
    end in
  String.eqb body "inf" || String.eqb body "infinity".

(** One element of [pd.to_numeric(column, errors='coerce')]: a number stays,
    a string is parsed, whatever does not parse becomes NaN. *)
Definition to_numeric (v : value) : value :=
  match v with
  | VStr s => default VNull (number_of_string s)
  | _ => v
  end.

(** ** [pd.to_datetime(..., format='%d/%m/%Y', errors='coerce')] and
       [.dt.strftime('%Y-%m-%d')] *)

Fixpoint split_on (sep : ascii) (s : string) : list string :=
  match s with
  | EmptyString => [EmptyString]
  | String c s' =>
      if Ascii.eqb c sep then EmptyString :: split_on sep s'
      else
        match split_on sep s' with
        | tok :: toks => String c tok :: toks
        | [] => [String c EmptyString]
        end
  end.

(** The directives [%d] and [%m]: one or two digits, not zero, at most
    [hi]; [%d] also takes a space in place of the leading zero. *)
Definition day_or_month (space : bool) (hi : Z) (tok : string) : option Z :=
  n ← match tok with
      | String a EmptyString => digit_of a
      | String a (String b EmptyString) =>
          ones ← digit_of b;
          if Ascii.eqb a " " && space then
            (if ones =? 0 then None else Some ones)
          else tens ← digit_of a; Some (10 * tens + ones)
      | _ => None
      end;
  if (1 <=? n) && (n <=? hi) then Some n else None.

(** The directive [%Y]: exactly four digits. *)
Definition year_digits (tok : string) : option Z :=
  let '(y, n, rest) := span_digits 0 0 tok in
  match n, rest with
  | 4%nat, EmptyString => Some y
  | _, _ => None
  end.

Definition is_leap (y : Z) : bool :=
  (y mod 4 =? 0) && (negb (y mod 100 =? 0) || (y mod 400 =? 0)).

Definition days_in_month (y m : Z) : Z :=
  if m =? 2 then (if is_leap y then 29 else 28)
  else if (m =? 4) || (m =? 6) || (m =? 9) || (m =? 11) then 30
  else 31.

(** The dates a nanosecond [Timestamp] holds at midnight:
    1677-09-22 to 2262-04-11. *)
Definition in_timestamp_range (y m d : Z) : bool :=
  let n := (y * 100 + m) * 100 + d in
  (16770922 <=? n) && (n <=? 22620411).

Definition valid_date (y m d : Z) : bool :=
  (1 <=? m) && (m <=? 12) && (1 <=? d) && (d <=? days_in_month y m)
  && in_timestamp_range y m d.

(** A date is year, month, day. *)
Definition strptime_dmy (s : string) : option (Z * Z * Z) :=
  match split_on "/" s with
  | [td; tm; ty] =>
      d ← day_or_month true 31 td;
      m ← day_or_month false 12 tm;
      y ← year_digits ty;
      if valid_date y m d then Some (y, m, d) else None
  | _ => None
  end.

Definition digit_char (d : Z) : ascii := ascii_of_nat (48 + Z.to_nat d).

Definition pad2 (n : Z) : string :=
  String (digit_char (n / 10)) (String (digit_char (n mod 10)) EmptyString).

Definition pad4 (n : Z) : string := pad2 (n / 100) +:+ pad2 (n mod 100).

Definition strftime_ymd (date : Z * Z * Z) : string :=
  let '(y, m, d) := date in pad4 y +:+ "-" +:+ pad2 m +:+ "-" +:+ pad2 d.

(** One element of the [Order_Date] assignment of line 81: a string in
    day/month/year form becomes the date as text, anything else NaN. *)
Definition to_datetime_strftime (v : value) : value :=
  match v with
  | VStr s => default VNull (VStr ∘ strftime_ymd <$> strptime_dmy s)
  | _ => VNull
  end.

(** ** Records and frames *)

Abbreviation record := (gmap string value).

(** [row[c]]; a label the record does not bind reads as NaN, the way a
    frame built from dicts fills it. *)
Definition cell (r : record) (c : string) : value := default VNull (r !! c).

Record DataFrame : Type := mkDataFrame {
  columns : gset string;
  rows : list record
}.

(** [pd.DataFrame(list_of_dicts)]: the columns are the labels of all the
    dicts, and a dict that lacks a label gets NaN there. *)
Definition pd_DataFrame (data : list record) : DataFrame :=
  let cols := ⋃ (dom <$> data) in
  {| columns := cols;
     rows := (λ r, r ∪ gset_to_gmap VNull cols) <$> data |}.

(** What [xcom_pull] hands to [pd.DataFrame]: the pushed list, or [None]
    when the upstream task pushed nothing, which gives the empty frame. *)
Definition xcom_frame (payload : option (list record)) : DataFrame :=
  pd_DataFrame (default [] payload).

Definition has_column (c : string) (df : DataFrame) : bool :=
  bool_decide (c ∈ columns df).

Definition to_dict_records (df : DataFrame) : list record := rows df.

(** [values.isin(others)] on one element. *)
Definition isin (v : value) (others : list value) : bool :=
  existsb (value_eqb v) others.

(** [df[c] = f(df[c])] for an element-wise [f]; reading a column the frame
    does not have raises [KeyError]. *)
Definition assign (c : string) (f : value → value) (df : DataFrame)
    : result DataFrame :=
  if has_column c df then
    Ok {| columns := columns df;
          rows := (λ r, <[c := f (cell r c)]> r) <$> rows df |}
  else Raise (KeyError [c]).

(** The same for an [f] that may raise on an element: the first element
    that raises ends the statement. *)
Fixpoint assign_rows (c : string) (f : value → result value)
    (l : list record) : result (list record) :=
  match l with
  | [] => Ok []
  | r :: l' =>
      let! v := f (cell r c) in
      let! l'' := assign_rows c f l' in
      Ok (<[c := v]> r :: l'')
  end.

Definition assign_try (c : string) (f : value → result value)
    (df : DataFrame) : result DataFrame :=
  if has_column c df then
    let! l := assign_rows c f (rows df) in
    Ok {| columns := columns df; rows := l |}
  else Raise (KeyError [c]).

(** [df.drop_duplicates()]: a row equal on every column to an earlier row
    goes, the first of them stays. *)
Definition row_eqb (cols : list string) (r1 r2 : record) : bool :=
  forallb (λ c, value_eqb (cell r1 c) (cell r2 c)) cols.

Fixpoint drop_seen (cols : list string) (seen l : list record)
    : list record :=
  match l with
  | [] => []
  | r :: l' =>
      if existsb (row_eqb cols r) seen then drop_seen cols seen l'
      else r :: drop_seen cols (r :: seen) l'
  end.

Definition drop_duplicates (df : DataFrame) : DataFrame :=
  {| columns := columns df;
     rows := drop_seen (elements (columns df)) [] (rows df) |}.

(** [df.rename(columns={old: new})]; nothing happens when [old] is not a
    column.  When [new] is a column already, pandas ends with two columns
    of that label and [to_dict] puts out the one that stands later in the
    frame; the frames here keep no order of columns, so the model, which
    keeps the renamed one, is meant for frames where [new] is no column,
    and the properties of the renamed column say so. *)
Definition rename_key (old new : string) (r : record) : record :=
  match r !! old with
  | Some v => <[new := v]> (delete old r)
  | None => r
  end.

Definition rename_column (old new : string) (df : DataFrame) : DataFrame :=
  if has_column old df then
    {| columns := {[new]} ∪ (columns df ∖ {[old]});
       rows := rename_key old new <$> rows df |}
  else df.

(** [df.dropna(subset=cs)]: when labels of [cs] are no columns, one
    [KeyError] names all of them; otherwise a row with NaN in one of the
    columns goes. *)
Definition notna_all (cs : list string) (r : record) : bool :=
  forallb (λ c, negb (isna (cell r c))) cs.

Definition dropna (cs : list string) (df : DataFrame) : result DataFrame :=
  match List.filter (λ c, negb (has_column c df)) cs with
  | c :: missing => Raise (KeyError (c :: missing))
  | [] =>
      Ok {| columns := columns df;
            rows := List.filter (notna_all cs) (rows df) |}
  end.

(** [df.fillna({c: d, ...})]: NaN in column [c] becomes [d]; a label that
    is not a column is skipped. *)
Definition fill (d v : value) : value := if isna v then d else v.

Definition fillna_column (df : DataFrame) (default : string * value)
    : DataFrame :=
  let '(c, d) := default in
  if has_column c df then
    {| columns := columns df;
       rows := (λ r, <[c := fill d (cell r c)]> r) <$> rows df |}
  else df.

Definition fillna (defaults : list (string * value)) (df : DataFrame)
    : DataFrame :=
  fold_left fillna_column defaults df.

(** ** The tables *)

(** [kaggle_data_staging] and [portofolio.online_order]. *)
Record stores : Type := mkStores {
  staging : list record;
  destination : list record
}.

#[global] Instance stores_eq_dec : EqDecision stores.
Proof. solve_decision. Defined.

(** Equality of a stored key and an offered one under the unique index on
    [Order_Number]: NULL conflicts with nothing. *)
Definition sql_eq (stored offered : value) : bool :=
  negb (isna stored) && value_eqb stored offered.

Definition conflicts (k : value) (table : list record) : bool :=
  existsb (λ r, sql_eq (cell r "Order_Number") k) table.

(** The number of rows of [table] under the key [k]. *)
Definition count_key (k : value) (table : list record) : nat :=
  length (List.filter (λ r, sql_eq (cell r "Order_Number") k) table).

(** ** Task 3: [load_data_to_mysql] *)

Definition load_data_to_mysql (extracted : list record)
    (table : list record) : result (list record * list record) :=
  let extracted_data := pd_DataFrame extracted in
  if negb (has_column "Order_Number" extracted_data) then
    Raise (ValueError "Column 'Order_Number' not found in the provided data.")
  else
    let existing_data := (λ r, cell r "Order_Number") <$> table in
    let new_data :=
      List.filter
        (λ r, negb (isin (cell r "Order_Number") existing_data))
        (rows extracted_data) in
    let table' :=
      match new_data with
      | [] => table
      | _ => table ++ new_data
      end in
    Ok (table', new_data).

(** ** Task 4: [transform_data] *)

Definition fillna_defaults : list (string * value) :=
  [ ("State_Code", VStr "Unknown");
    ("Customer_Name", VStr "Unknown");
    ("Status", VStr "Unknown");
    ("Product", VStr "Unknown");
    ("Category", VStr "Unknown");
    ("Brand", VStr "Unknown");
    ("Quantity", VFloat 0);
    ("Total_Cost", VFloat 0);
    ("Total_Sales", VFloat 0);
    ("Assigned_Supervisor", VStr "Unknown") ].

(** The result is what the task pushes under [transformed_data]: [None]
    when it returns at line 75 without pushing. *)
Definition transform_data (staged : list record)
    : result (option (list record)) :=
  let staged_data := pd_DataFrame staged in
  if negb (has_column "Order_Date" staged_data) then Ok None
  else
    let staged_data := drop_duplicates staged_data in
    let! staged_data :=
      assign "Order_Date" to_datetime_strftime staged_data in
    let staged_data :=
      rename_column "Assigned Supervisor" "Assigned_Supervisor" staged_data in
    let! staged_data := dropna ["Cost"; "Sales"] staged_data in
    let! staged_data := assign "Cost" to_numeric staged_data in
    let! staged_data := assign "Sales" to_numeric staged_data in
    let! staged_data := assign_try "Order_Number" astype_int_str staged_data in
    let staged_data := fillna fillna_defaults staged_data in
    Ok (Some (to_dict_records staged_data)).

(** ** Task 5: [load_transformed_data_to_postgresql] *)

(** The bind parameters of [upsert_sql], in the order of the statement. *)
Definition upsert_params : list string :=
  [ "Order_Number"; "State_Code"; "Customer_Name"; "Order_Date"; "Status";
    "Product"; "Category"; "Brand"; "Cost"; "Sales"; "Quantity";
    "Total_Cost"; "Total_Sales"; "Assigned_Supervisor" ].

(** The row the statement offers: every parameter needs a value in the
    dict; what else the dict holds is left out. *)
Fixpoint bind_params (params : list string) (row : record) : result record :=
  match params with
  | [] => Ok ∅
  | p :: params' =>
      match row !! p with
      | Some v =>
          let! bound := bind_params params' row in Ok (<[p := v]> bound)
      | None => Raise (StatementError p)
      end
  end.

(** [INSERT ... ON CONFLICT (Order_Number) DO NOTHING] for one row. *)
Definition execute_upsert (row : record) (table : list record)
    : result (list record) :=
  let! offered := bind_params upsert_params row in
  Ok (if conflicts (cell offered "Order_Number") table then table
      else table ++ [offered]).

(** The loop of lines 140-141.  A statement that raises ends the task; the
    rows inserted before it stay. *)
Fixpoint iterrows_execute (l : list record) (table : list record)
    : list record * result unit :=
  match l with
  | [] => (table, Ok ())
  | row :: l' =>
      match execute_upsert row table with
      | Ok table' => iterrows_execute l' table'
      | Raise e => (table, Raise e)
      end
  end.

Definition load_transformed_data_to_postgresql
    (transformed : option (list record)) (table : list record)
    : list record * result unit :=
  iterrows_execute (rows (xcom_frame transformed)) table.

(** ** The run: extract >> load_data_to_mysql >> transform_data >>
       load_transformed_data_to_postgresql *)

(** [extracted] is what [extract_data] read from the source file.  A task
    that raises fails the run and the tasks after it do not start. *)
Definition run_pipeline (extracted : list record) (st : stores)
    : stores * result unit :=
  match load_data_to_mysql extracted (staging st) with
  | Raise e => (st, Raise e)
  | Ok (staged_table, staged_data) =>
      match transform_data staged_data with
      | Raise e =>
          ({| staging := staged_table; destination := destination st |},
           Raise e)
      | Ok transformed_data =>
          let '(table, outcome) :=
            load_transformed_data_to_postgresql transformed_data
              (destination st) in
          ({| staging := staged_table; destination := table |}, outcome)
      end
  end.

(** ** Vocabulary of the properties *)

(** All the dicts of a batch carry the same labels, as the records of
    [DataFrame.to_dict('records')] do. *)
Definition homogeneous (data : list record) : Prop :=
  ∀ r1 r2, r1 ∈ data → r2 ∈ data → dom r1 = dom r2.

(** Every Order_Number of the frame is a [plain_key]. *)
Definition plain_keys (df : DataFrame) : bool :=
  forallb (λ r, plain_key (cell r "Order_Number")) (rows df).

(** The keys a table holds. *)
Definition order_numbers (table : list record) : list value :=
  (λ r, cell r "Order_Number") <$> table.

(** The rows of a frame whose key is not in the table. *)
Definition not_staged (table l : list record) : list record :=
  List.filter
    (λ r, negb (isin (cell r "Order_Number") (order_numbers table))) l.

(** The first element that raises, or all the results. *)
Fixpoint traverse {A B : Type} (f : A → result B) (l : list A)
    : result (list B) :=
  match l with
  | [] => Ok []
  | a :: l' =>
      let! b := f a in
      let! bs := traverse f l' in
      Ok (b :: bs)
  end.

(** Lines 81 to 108 as they act on one row of a frame whose columns were
    [cols] at line 78: the element-wise steps up to line 91, then the
    coercion of the key, which may raise, and the defaults. *)
Definition date_row (r : record) : record :=
  <["Order_Date" := to_datetime_strftime (cell r "Order_Date")]> r.

Definition rename_row (cols : gset string) (r : record) : record :=
  if bool_decide ("Assigned Supervisor" ∈ cols)
  then rename_key "Assigned Supervisor" "Assigned_Supervisor" r else r.

Definition cost_row (r : record) : record :=
  <["Cost" := to_numeric (cell r "Cost")]> r.

Definition sales_row (r : record) : record :=
  <["Sales" := to_numeric (cell r "Sales")]> r.

Definition renamed_columns (cols : gset string) : gset string :=
  if bool_decide ("Assigned Supervisor" ∈ cols)
  then {["Assigned_Supervisor"]} ∪ (cols ∖ {["Assigned Supervisor"]})
  else cols.

Definition fillna_row (cols : gset string) (r : record)
    (default : string * value) : record :=
  let '(c, d) := default in
  if bool_decide (c ∈ cols) then <[c := fill d (cell r c)]> r else r.

(** The element-wise steps up to line 91 on one row. *)
Definition normalize_row (cols : gset string) (r : record) : record :=
  sales_row (cost_row (rename_row cols (date_row r))).

Definition clean_row (cols : gset string) (r : record) : result record :=
  let r := normalize_row cols r in
  let! number := astype_int_str (cell r "Order_Number") in
  Ok (fold_left (fillna_row (renamed_columns cols)) fillna_defaults
        (<["Order_Number" := number]> r)).

(** The rows of the frame that reach line 90: the first of each group of
    equal rows, if its [Cost] and [Sales] are not NaN. *)
Definition kept_rows (df : DataFrame) : list record :=
  List.filter (notna_all ["Cost"; "Sales"])
    (drop_seen (elements (columns df)) [] (rows df)).

(** [sep] does not occur in [s]. *)
Fixpoint free_of (sep : ascii) (s : string) : bool :=
  match s with
  | EmptyString => true
  | String c s' => negb (Ascii.eqb c sep) && free_of sep s'
  end.

(** [o] is [Some n], as a test. *)
Definition parses_to (o : option Z) (n : Z) : bool :=
  match o with
  | Some k => k =? n
  | None => false
  end.

(** The day/month/year text of a date, two digits for the day and for the
    month and four for the year. *)
Definition dmy_text (y m d : Z) : string :=
  pad2 d +:+ "/" +:+ pad2 m +:+ "/" +:+ pad4 y.

(** Truncation toward zero of a float. *)
Definition trunc (q : Q) : Z := Z.quot (Qnum q) (Z.pos (Qden q)).

(** No character of [s] is white space. *)
Fixpoint no_space (s : string) : bool :=
  match s with
  | EmptyString => true
  | String c s' => negb (is_whitespace c) && no_space s'
  end.

(** ** Examples *)

Definition order (number date cost sales : value) : record :=
  list_to_map
    [ ("Order_Number", number); ("State_Code", VStr "CA");
      ("Customer_Name", VNull); ("Order_Date", date);
      ("Status", VStr "Delivered"); ("Product", VStr "Desk");
      ("Category", VStr "Furniture"); ("Brand", VNull);
      ("Cost", cost); ("Sales", sales); ("Quantity", VInt 2);
      ("Total_Cost", VFloat 20); ("Total_Sales", VNull);
      ("Assigned Supervisor", VStr "Ken") ].

(** The row [transform_data] makes of [order number date cost sales] when
    the date parses to [date'] and the key is written [number']. *)
Definition cleaned (number' date' cost' sales' : value) : record :=
  list_to_map
    [ ("Order_Number", number'); ("State_Code", VStr "CA");
      ("Customer_Name", VStr "Unknown"); ("Order_Date", date');
      ("Status", VStr "Delivered"); ("Product", VStr "Desk");
      ("Category", VStr "Furniture"); ("Brand", VStr "Unknown");
      ("Cost", cost'); ("Sales", sales'); ("Quantity", VInt 2);
      ("Total_Cost", VFloat 20); ("Total_Sales", VFloat 0);
      ("Assigned_Supervisor", VStr "Ken") ].

Definition order_1001 : record :=
  order (VStr "1001") (VStr "31/01/2024") (VInt 10) (VInt 15).
Definition order_1002 : record :=
  order (VStr "1002") (VStr "01/02/2024") (VStr "12.5") (VInt 20).
Definition row_2002 : record :=
  cleaned (VStr "2002") (VStr "2024-01-31") (VInt 1) (VInt 2).
Definition order_2002 : record :=
  order (VInt 2002) (VStr "05/03/2024") (VInt 7) (VInt 9).

Definition order_minus_5 : record :=
  order (VInt (-5)) (VStr "31/01/2024") (VInt 10) (VInt 15).
Definition order_abc : record :=
  order (VStr "abc") (VStr "31/01/2024") (VInt 10) (VInt 15).
Definition order_no_cost : record :=
  order (VStr "1004") (VStr "31/01/2024") VNull (VInt 15).

Definition order_1001_7 : record :=
  order (VFloat (10017 # 10)) (VStr "31/01/2024") (VInt 10) (VInt 15).
Definition order_bad_date : record :=
  order (VStr "1005") (VStr "2024-01-31") (VInt 10) (VInt 15).

(** A Cost that is text and no number, next to a Sales and next to none. *)
Definition order_text_cost : record :=
  order (VInt 1006) (VStr "31/01/2024") (VStr "12 USD") (VInt 15).
Definition order_text_cost_no_sales : record :=
  order (VInt 1007) (VStr "31/01/2024") (VStr "12 USD") VNull.
Definition order_1009 : record :=
  order (VInt 1009) (VStr "31/01/2024") (VStr "10") (VInt 15).

(** Two records of a file that has no [Order_Number] column. *)
Definition unkeyed_batch : list record :=
  [ {[ "Order_Date" := VStr "31/01/2024"; "Cost" := VInt 2 ]};
    {[ "Order_Date" := VStr "05/03/2024"; "Cost" := VInt 5 ]} ].

Definition order_1001_again : record :=
  order (VStr "1001") (VStr "02/02/2024") (VInt 11) (VInt 16).

(** A dict with a date and nothing else, and one with a key and nothing
    else. *)
Definition dated_only : record := {[ "Order_Date" := VStr "31/01/2024" ]}.
Definition key_only : record := {[ "Order_Number" := VStr "1" ]}.

Definition cleaned_1001 : record :=
  cleaned (VStr "1001") (VStr "2024-01-31") (VInt 10) (VInt 15).
Definition cleaned_1006 : record :=
  cleaned (VStr "1006") (VStr "2024-01-31") VNull (VInt 15).

(** * Properties *)

(** A closed equation between tables or task results, by evaluation. *)
Ltac by_evaluation := apply (bool_decide_unpack _); vm_compute; exact I.

Lemma Ok_inj {A : Type} (a b : A) : Ok a = Ok b → a = b.
Proof. congruence. Qed.

(** ** Cells compare by an equivalence *)

Lemma Zeqb_Qeq_bool a b : Z.eqb a b = Qeq_bool (inject_Z a) (inject_Z b).
Proof.
  unfold Qeq_bool, inject_Z; simpl.
  rewrite !Z.mul_1_r.
  destruct (Z.eqb_spec a b), (Z.eq_dec a b); simpl; congruence.
Qed.

Lemma value_eqb_refl v : value_eqb v v = true.
Proof.
  destruct v; simpl; auto.
  - apply Z.eqb_refl.
  - apply Qeq_bool_iff. reflexivity.
  - apply String.eqb_refl.
Qed.

Lemma value_eqb_sym v w : value_eqb v w = value_eqb w v.
Proof.
  destruct v, w; simpl; auto using Z.eqb_sym, String.eqb_sym;
    apply eq_true_iff_eq; rewrite !Qeq_bool_iff; split; intros H;
    symmetry; exact H.
Qed.

Lemma value_eqb_trans u v w :
  value_eqb u v = true → value_eqb v w = true → value_eqb u w = true.
Proof.
  destruct u, v, w; simpl; try congruence;
    rewrite ?Zeqb_Qeq_bool, ?Qeq_bool_iff, ?String.eqb_eq;
    try congruence; intros H1 H2; rewrite H1; exact H2.
Qed.

Lemma value_eqb_isna v w : value_eqb v w = true → isna v = isna w.
Proof. destruct v, w; simpl; congruence. Qed.

(** ** Frames built from dicts *)

Lemma elem_of_columns_pd_DataFrame c data :
  c ∈ columns (pd_DataFrame data) ↔ ∃ r, r ∈ data ∧ is_Some (r !! c).
Proof.
  simpl. rewrite elem_of_union_list. split.
  - intros (X & HX & Hc). apply list_elem_of_fmap in HX as (r & -> & Hr).
    exists r. split; [exact Hr|]. by apply elem_of_dom.
  - intros (r & Hr & Hc). exists (dom r). split.
    + apply list_elem_of_fmap. by exists r.
    + by apply elem_of_dom.
Qed.

Lemma has_column_elem c df : has_column c df = true → c ∈ columns df.
Proof. unfold has_column. by rewrite bool_decide_eq_true. Qed.

Lemma has_column_pd_DataFrame c data :
  has_column c (pd_DataFrame data) = true ↔ ∃ r, r ∈ data ∧ is_Some (r !! c).
Proof.
  unfold has_column. rewrite bool_decide_eq_true.
  apply elem_of_columns_pd_DataFrame.
Qed.

Lemma pad_lookup (r : record) (cols : gset string) c v :
  r !! c = Some v → (r ∪ gset_to_gmap VNull cols) !! c = Some v.
Proof. intros H. by apply lookup_union_Some_l. Qed.

Lemma pad_full (r : record) (cols : gset string) :
  dom r = cols → r ∪ gset_to_gmap VNull cols = r.
Proof.
  intros Hd. apply map_eq. intros c.
  destruct (r !! c) as [v|] eqn:E.
  - by apply pad_lookup.
  - apply lookup_union_None. split; [exact E|].
    apply lookup_gset_to_gmap_None. rewrite <- Hd.
    by apply not_elem_of_dom.
Qed.

Lemma homogeneous_columns data r :
  homogeneous data → r ∈ data → columns (pd_DataFrame data) = dom r.
Proof.
  intros Hh Hr. apply set_eq. intros c.
  rewrite elem_of_columns_pd_DataFrame, elem_of_dom. split.
  - intros (r' & Hr' & Hc). apply elem_of_dom.
    rewrite (Hh r r' Hr Hr'). by apply elem_of_dom.
  - intros Hc. by exists r.
Qed.

Lemma homogeneous_rows data :
  homogeneous data → rows (pd_DataFrame data) = data.
Proof.
  intros Hh. unfold pd_DataFrame, rows.
  transitivity (id <$> data); [|apply list_fmap_id].
  apply list_fmap_ext. intros i r Hr. simpl.
  apply pad_full. symmetry.
  apply (homogeneous_columns data r Hh).
  by apply list_elem_of_lookup_2 in Hr.
Qed.

(** ** Staging *)

Lemma load_data_to_mysql_ok extracted table :
  has_column "Order_Number" (pd_DataFrame extracted) = true →
  load_data_to_mysql extracted table =
    let new_data := not_staged table (rows (pd_DataFrame extracted)) in
    Ok (table ++ new_data, new_data).
Proof.
  intros H. unfold load_data_to_mysql. rewrite H. simpl negb. cbv iota.
  fold (order_numbers table).
  fold (not_staged table (rows (pd_DataFrame extracted))).
  destruct (not_staged table (rows (pd_DataFrame extracted))); simpl.
  - by rewrite app_nil_r.
  - reflexivity.
Qed.

Lemma not_staged_elem table l r :
  r ∈ not_staged table l ↔
  r ∈ l ∧ isin (cell r "Order_Number") (order_numbers table) = false.
Proof.
  unfold not_staged. rewrite !list_elem_of_In, filter_In, negb_true_iff.
  reflexivity.
Qed.

Lemma isin_elem v (l : list value) :
  isin v l = true ↔ ∃ w, w ∈ l ∧ value_eqb v w = true.
Proof.
  unfold isin. rewrite existsb_exists.
  split; intros (w & Hw & E); exists w; split; auto;
    by apply list_elem_of_In.
Qed.

(** Once a batch is staged, none of its rows is new. *)
Lemma not_staged_again table l :
  not_staged (table ++ not_staged table l) l = [].
Proof.
  destruct (not_staged (table ++ not_staged table l) l) as [|r l'] eqn:E;
    [reflexivity|exfalso].
  assert (Hr : r ∈ not_staged (table ++ not_staged table l) l)
    by (rewrite E; left).
  apply not_staged_elem in Hr as [Hr Hnot].
  apply not_true_iff_false in Hnot. apply Hnot. clear Hnot E.
  unfold order_numbers. rewrite fmap_app.
  destruct (isin (cell r "Order_Number") (order_numbers table)) eqn:Ht.
  - apply isin_elem in Ht as (w & Hw & Ew). apply isin_elem.
    exists w. split; [|exact Ew]. apply elem_of_app. by left.
  - apply isin_elem. exists (cell r "Order_Number").
    split; [|apply value_eqb_refl].
    apply elem_of_app. right. apply list_elem_of_fmap.
    exists r. split; [reflexivity|]. by apply not_staged_elem.
Qed.

(** ** The upsert *)

Lemma bind_params_ok params (row : record) :
  (∀ p, p ∈ params → is_Some (row !! p)) →
  ∃ offered, bind_params params row = Ok offered
    ∧ ∀ p, p ∈ params → offered !! p = row !! p.
Proof.
  induction params as [|p params IH]; intros H.
  - exists ∅. split; [reflexivity|]. intros p Hp. by apply elem_of_nil in Hp.
  - destruct IH as (bound & Hb & Hl).
    { intros q Hq. apply H. by right. }
    destruct (H p) as [v Hv]; [by left|].
    exists (<[p := v]> bound). simpl. rewrite Hv, Hb. split; [reflexivity|].
    intros q Hq. destruct (decide (p = q)) as [<-|Hne].
    + by rewrite lookup_insert_eq.
    + rewrite lookup_insert_ne by done. apply Hl.
      apply elem_of_cons in Hq as [?|?]; congruence.
Qed.

Lemma count_key_app k t1 t2 :
  count_key k (t1 ++ t2) = (count_key k t1 + count_key k t2)%nat.
Proof. unfold count_key. by rewrite List.filter_app, length_app. Qed.

Lemma conflicts_count k table :
  conflicts k table = false → count_key k table = 0%nat.
Proof.
  unfold conflicts, count_key. induction table as [|r t IH]; simpl; auto.
  rewrite orb_false_iff. intros [-> H]. auto.
Qed.

Lemma conflicts_sql_eq k k' table :
  sql_eq k' k = true → conflicts k table = true → conflicts k' table = true.
Proof.
  intros Hk. unfold conflicts. rewrite !existsb_exists.
  intros (r & Hr & E). exists r. split; [exact Hr|].
  unfold sql_eq in *. apply andb_true_iff in E as [Hn E].
  apply andb_true_iff in Hk as [_ Hk]. rewrite Hn. simpl.
  apply value_eqb_trans with k; [exact E|].
  rewrite value_eqb_sym. exact Hk.
Qed.

(** One statement keeps the key unique. *)
Lemma execute_upsert_unique row table table' :
  (∀ k, count_key k table ≤ 1)%nat →
  execute_upsert row table = Ok table' →
  (∀ k, count_key k table' ≤ 1)%nat.
Proof.
  unfold execute_upsert. intros Hu.
  destruct (bind_params upsert_params row) as [offered|]; simpl;
    [|discriminate].
  destruct (conflicts (cell offered "Order_Number") table) eqn:Ec;
    intros [= <-]; [exact Hu|].
  intros k. rewrite count_key_app. specialize (Hu k).
  unfold count_key at 2. simpl.
  destruct (sql_eq (cell offered "Order_Number") k) eqn:Ek; simpl; [|lia].
  enough (count_key k table = 0)%nat by lia.
  apply conflicts_count.
  destruct (conflicts k table) eqn:Ekt; [|reflexivity].
  rewrite (conflicts_sql_eq _ _ _ Ek Ekt) in Ec. discriminate.
Qed.

Lemma iterrows_execute_unique l table :
  (∀ k, count_key k table ≤ 1)%nat →
  (∀ k, count_key k (iterrows_execute l table).1 ≤ 1)%nat.
Proof.
  revert table. induction l as [|row l IH]; intros table Hu; [exact Hu|].
  simpl. destruct (execute_upsert row table) as [table'|] eqn:E.
  - apply IH. eapply execute_upsert_unique; eauto.
  - exact Hu.
Qed.

(** The loop only appends: the table it starts from is kept as it is. *)
Lemma iterrows_execute_prefix l table :
  ∃ added, (iterrows_execute l table).1 = table ++ added
    ∧ ∀ row, row ∈ added →
        ∃ r, r ∈ l ∧ bind_params upsert_params r = Ok row.
Proof.
  revert table. induction l as [|r l IH]; intros table.
  - exists []. split; [by rewrite app_nil_r|]. intros ? H.
    by apply elem_of_nil in H.
  - simpl. unfold execute_upsert.
    destruct (bind_params upsert_params r) as [offered|] eqn:Eb; simpl.
    + destruct (conflicts (cell offered "Order_Number") table).
      * destruct (IH table) as (added & -> & Ha). exists added.
        split; [reflexivity|]. intros row Hrow.
        destruct (Ha row Hrow) as (r' & ? & ?). exists r'. split; [by right|done].
      * destruct (IH (table ++ [offered])) as (added & -> & Ha).
        exists (offered :: added). split; [by rewrite <- app_assoc|].
        intros row Hrow. apply elem_of_cons in Hrow as [->|Hrow].
        -- exists r. split; [by left|done].
        -- destruct (Ha row Hrow) as (r' & ? & ?). exists r'.
           split; [by right|done].
    + exists []. split; [by rewrite app_nil_r|]. intros ? H.
      by apply elem_of_nil in H.
Qed.

(** ** The stages and the run *)

Lemma transform_data_nil : transform_data [] = Ok None.
Proof. reflexivity. Qed.

Lemma load_transformed_None table :
  load_transformed_data_to_postgresql None table = (table, Ok ()).
Proof. reflexivity. Qed.

(** A second run on the same file changes neither table. *)
Lemma run_pipeline_again extracted st :
  (run_pipeline extracted (run_pipeline extracted st).1).1
  = (run_pipeline extracted st).1.
Proof.
  destruct (has_column "Order_Number" (pd_DataFrame extracted)) eqn:Hc.
  - unfold run_pipeline at 2 3. rewrite (load_data_to_mysql_ok _ _ Hc). cbv beta iota zeta.
    set (new_data := not_staged (staging st) (rows (pd_DataFrame extracted))).
    assert (Hnext : ∀ d,
      (run_pipeline extracted
         {| staging := staging st ++ new_data; destination := d |}).1
      = {| staging := staging st ++ new_data; destination := d |}).
    { intros d. unfold run_pipeline. simpl staging.
      rewrite (load_data_to_mysql_ok _ _ Hc). cbv beta iota zeta.
      unfold new_data. rewrite not_staged_again, app_nil_r.
      rewrite transform_data_nil, load_transformed_None. reflexivity. }
    destruct (transform_data new_data) as [transformed|e];
      [|cbn [fst]; apply Hnext].
    destruct (load_transformed_data_to_postgresql transformed (destination st))
      as [table outcome]. cbn [fst]. apply Hnext.
  - assert (Hfail : ∀ st', (run_pipeline extracted st').1 = st').
    { intros st'. unfold run_pipeline, load_data_to_mysql.
      rewrite Hc. reflexivity. }
    by rewrite !Hfail.
Qed.

Lemma run_pipeline_unique extracted st :
  (∀ k, count_key k (destination st) ≤ 1)%nat →
  (∀ k, count_key k (destination (run_pipeline extracted st).1) ≤ 1)%nat.
Proof.
  intros Hu. unfold run_pipeline.
  destruct (load_data_to_mysql extracted (staging st)) as [[t new_data]|e];
    [|exact Hu].
  destruct (transform_data new_data) as [transformed|e]; [|exact Hu].
  pose proof (iterrows_execute_unique
                (rows (xcom_frame transformed)) (destination st) Hu) as H.
  unfold load_transformed_data_to_postgresql.
  destruct (iterrows_execute _ _) as [table outcome]. exact H.
Qed.

(** C1. Running the pipeline a second time on the same source file leaves
    both tables as the first run left them: the second run adds no row to
    the destination and changes none; and when the destination held at most
    one row for every Order_Number before, it holds at most one after the
    first run and after the second. *)
Theorem run_pipeline_idempotent (extracted : list record) (st : stores) :
  (∀ k, count_key k (destination st) ≤ 1)%nat →
  (run_pipeline extracted (run_pipeline extracted st).1).1
    = (run_pipeline extracted st).1
  ∧ (∀ k, count_key k (destination (run_pipeline extracted st).1) ≤ 1)%nat
  ∧ (∀ k, count_key k
        (destination (run_pipeline extracted
                        (run_pipeline extracted st).1).1) ≤ 1)%nat.
Proof.
  intros Hu. split; [apply run_pipeline_again|].
  split; [by apply run_pipeline_unique|].
  rewrite run_pipeline_again. by apply run_pipeline_unique.
Qed.


(** Scenario B: with "1001" staged, of "1001" and "1002" only "1002" is
    staged and returned. *)
Example load_data_to_mysql_scenario_B :
  load_data_to_mysql [order_1001; order_1002] [order_1001]
  = Ok ([order_1001; order_1002], [order_1002]).
Proof. by_evaluation. Qed.

(** Scenario A: an empty staging table takes the whole batch. *)
Example load_data_to_mysql_scenario_A :
  load_data_to_mysql [order_1001; order_1002; order_2002] []
  = Ok ([order_1001; order_1002; order_2002],
        [order_1001; order_1002; order_2002]).
Proof. by_evaluation. Qed.

(** C6. In a batch whose records all carry the same fields, as the records
    of [to_dict('records')] do, a record that lacks the Order_Number field
    makes the staging stage raise the ValueError of line 45 before it reads
    or writes the staging table: nothing is staged, not even the records
    before the offending one, and the run ends with both tables as they
    were. *)
Theorem load_data_to_mysql_without_order_number
    (extracted : list record) (st : stores) (r : record) :
  homogeneous extracted →
  r ∈ extracted →
  r !! "Order_Number" = None →
  load_data_to_mysql extracted (staging st)
    = Raise (ValueError "Column 'Order_Number' not found in the provided data.")
  ∧ run_pipeline extracted st
    = (st, Raise (ValueError
                    "Column 'Order_Number' not found in the provided data.")).
Proof.
  intros Hh Hr Hn.
  assert (Hc : has_column "Order_Number" (pd_DataFrame extracted) = false).
  { apply not_true_iff_false. intros Hc. apply has_column_elem in Hc.
    rewrite (homogeneous_columns extracted r Hh Hr) in Hc.
    apply elem_of_dom in Hc as [v Hv]. rewrite Hn in Hv. discriminate. }
  assert (Hl : load_data_to_mysql extracted (staging st)
    = Raise (ValueError "Column 'Order_Number' not found in the provided data.")).
  { unfold load_data_to_mysql. by rewrite Hc. }
  split; [exact Hl|]. unfold run_pipeline. by rewrite Hl.
Qed.

(** C7. When the staged batch has no Order_Date column, the transform
    stage returns without raising and pushes nothing; the upsert stage then
    reads an empty frame, executes no statement and leaves the destination
    as it is. *)
Theorem transform_data_without_order_date (staged : list record) :
  has_column "Order_Date" (pd_DataFrame staged) = false →
  transform_data staged = Ok None
  ∧ ∀ table,
      load_transformed_data_to_postgresql None table = (table, Ok ()).
Proof.
  intros H. split; [|reflexivity].
  unfold transform_data. by rewrite H.
Qed.

(** C8. A row that has a value for every parameter of the statement and
    whose Order_Number is in the destination already is skipped: the
    statement raises nothing and leaves the table as it is, so the count of
    that key does not move, and the loop goes on with the rest of the
    batch. *)
Theorem execute_upsert_on_conflict
    (row : record) (l table : list record) :
  (∀ p, p ∈ upsert_params → is_Some (row !! p)) →
  conflicts (cell row "Order_Number") table = true →
  execute_upsert row table = Ok table
  ∧ iterrows_execute (row :: l) table = iterrows_execute l table
  ∧ ∀ k, count_key k (iterrows_execute [row] table).1 = count_key k table.
Proof.
  intros Hp Hc.
  assert (He : execute_upsert row table = Ok table).
  { unfold execute_upsert.
    destruct (bind_params_ok upsert_params row Hp) as (offered & -> & Ho).
    simpl. unfold cell at 1.
    rewrite (Ho "Order_Number") by (left; reflexivity).
    fold (cell row "Order_Number"). by rewrite Hc. }
  split; [exact He|]. simpl. rewrite He. split; reflexivity.
Qed.

(** ** The transform stage, row by row *)

Lemma cell_insert_eq (r : record) c v : cell (<[c := v]> r) c = v.
Proof. unfold cell. by rewrite lookup_insert_eq. Qed.

Lemma cell_insert_ne (r : record) c c' v :
  c' ≠ c → cell (<[c' := v]> r) c = cell r c.
Proof. intros. unfold cell. by rewrite lookup_insert_ne. Qed.

Lemma cell_rename_key (r : record) old new c :
  c ≠ old → c ≠ new → cell (rename_key old new r) c = cell r c.
Proof.
  intros Ho Hn. unfold rename_key, cell. destruct (r !! old); [|done].
  by rewrite lookup_insert_ne, lookup_delete_ne.
Qed.

Lemma cell_rename_row cols (r : record) c :
  c ≠ "Assigned Supervisor" → c ≠ "Assigned_Supervisor" →
  cell (rename_row cols r) c = cell r c.
Proof.
  intros. unfold rename_row. case_bool_decide; [|done].
  by apply cell_rename_key.
Qed.

Lemma has_column_rename c old new df :
  c ≠ old → c ≠ new →
  has_column c (rename_column old new df) = has_column c df.
Proof.
  intros Ho Hn. unfold rename_column. destruct (has_column old df); [|done].
  unfold has_column. simpl. apply bool_decide_ext.
  rewrite elem_of_union, elem_of_difference, !elem_of_singleton.
  split; [intros [?|[? _]]; [congruence|done]|].
  intros Hc. right. by split.
Qed.

Lemma rename_column_rows df :
  rows (rename_column "Assigned Supervisor" "Assigned_Supervisor" df)
  = rename_row (columns df) <$> rows df.
Proof.
  unfold rename_column, rename_row, has_column.
  case_bool_decide; [done|]. simpl. by rewrite list_fmap_id.
Qed.

Lemma rename_column_columns df :
  columns (rename_column "Assigned Supervisor" "Assigned_Supervisor" df)
  = renamed_columns (columns df).
Proof.
  unfold rename_column, renamed_columns, has_column. by case_bool_decide.
Qed.

Lemma filter_fmap {A B : Type} (P : B → bool) (g : A → B) (l : list A) :
  List.filter P (g <$> l) = g <$> List.filter (λ a, P (g a)) l.
Proof.
  induction l as [|a l IH]; csimpl; [done|].
  destruct (P (g a)); csimpl; by rewrite IH.
Qed.

Lemma fillna_rows defaults df :
  rows (fillna defaults df)
  = (λ r, fold_left (fillna_row (columns df)) defaults r) <$> rows df
  ∧ columns (fillna defaults df) = columns df.
Proof.
  unfold fillna. revert df.
  induction defaults as [|[c d] defaults IH]; intros df; cbn [fold_left].
  - by rewrite list_fmap_id.
  - destruct (IH (fillna_column df (c, d))) as [-> ->].
    unfold fillna_column, has_column. case_bool_decide; simpl.
    + split; [|done]. rewrite <- list_fmap_compose.
      apply list_fmap_ext. intros i r _. simpl. by rewrite bool_decide_true.
    + split; [|done]. apply list_fmap_ext. intros i r _. simpl.
      by rewrite bool_decide_false.
Qed.

Lemma assign_rows_traverse c (f : value → result value)
    (g h : record → record) (l : list record) :
  (let! l' := assign_rows c f (g <$> l) in Ok (Some (h <$> l')))
  = (let! out :=
       traverse (λ r, let! v := f (cell (g r) c) in Ok (h (<[c := v]> (g r))))
         l in
     Ok (Some out)).
Proof.
  induction l as [|r l IH]; csimpl; [done|].
  destruct (f (cell (g r) c)) as [v|e]; cbn [bind]; [|done].
  destruct (assign_rows c f (g <$> l)) as [l'|e],
           (traverse _ l) as [out|e']; cbn [bind] in *; by simplify_eq.
Qed.

Lemma assign_ok c f df :
  has_column c df = true →
  assign c f df
  = Ok {| columns := columns df;
          rows := (λ r, <[c := f (cell r c)]> r) <$> rows df |}.
Proof. intros H. unfold assign. by rewrite H. Qed.

Lemma dropna_cases a b df :
  dropna [a; b] df =
    if negb (has_column a df)
    then Raise (KeyError (a :: if has_column b df then [] else [b]))
    else if negb (has_column b df) then Raise (KeyError [b])
    else Ok {| columns := columns df;
               rows := List.filter (notna_all [a; b]) (rows df) |}.
Proof.
  unfold dropna. simpl List.filter.
  by destruct (has_column a df), (has_column b df).
Qed.

(** [transform_data], case by case: no output without an Order_Date
    column, [KeyError] for the missing ones of Cost and Sales or for a
    missing Order_Number column, and otherwise every kept row cleaned, or the first error of one. *)
Lemma transform_data_cases staged :
  let df := pd_DataFrame staged in
  transform_data staged =
    if negb (has_column "Order_Date" df) then Ok None
    else if negb (has_column "Cost" df)
         then Raise (KeyError
                       ("Cost" :: if has_column "Sales" df then []
                                  else ["Sales"]))
    else if negb (has_column "Sales" df) then Raise (KeyError ["Sales"])
    else if negb (has_column "Order_Number" df)
         then Raise (KeyError ["Order_Number"])
    else
      let! out := traverse (clean_row (columns df)) (kept_rows df) in
      Ok (Some out).
Proof.
  intros df. unfold transform_data. fold df.
  destruct (has_column "Order_Date" df) eqn:Hd; simpl negb; cbv iota; [|done].
  rewrite (assign_ok "Order_Date" _ (drop_duplicates df)) by exact Hd.
  cbn [bind].
  set (df2 := {| columns := columns (drop_duplicates df); rows := _ |}).
  set (df3 := rename_column _ _ df2).
  assert (Hcol : ∀ c, c ≠ "Assigned Supervisor" → c ≠ "Assigned_Supervisor" →
            has_column c df3 = has_column c df).
  { intros c H1 H2. unfold df3. by rewrite has_column_rename. }
  rewrite dropna_cases, !Hcol by done.
  destruct (has_column "Cost" df) eqn:Hcost; simpl negb; cbv iota; [|done].
  destruct (has_column "Sales" df) eqn:Hsales; simpl negb; cbv iota; [|done].
  cbn [bind].
  rewrite assign_ok
    by (transitivity (has_column "Cost" df3);
        [reflexivity|by rewrite Hcol]).
  cbn [bind columns rows].
  rewrite assign_ok
    by (transitivity (has_column "Sales" df3);
        [reflexivity|by rewrite Hcol]).
  cbn [bind columns rows].
  unfold assign_try, has_column at 1. cbn [columns rows].
  fold (has_column "Order_Number" df3). rewrite Hcol by done.
  destruct (has_column "Order_Number" df) eqn:Hnum; simpl negb; cbv iota;
    [|done].
  unfold to_dict_records.
  match goal with
  | |- context [assign_rows _ _ ?l] =>
      replace l with
        ((λ r, sales_row (cost_row (rename_row (columns df) (date_row r))))
           <$> kept_rows df)
  end.
  - unfold clean_row, normalize_row.
    rewrite <- (assign_rows_traverse "Order_Number" astype_int_str _
                 (λ r, fold_left (fillna_row (renamed_columns (columns df)))
                         fillna_defaults r)).
    destruct (assign_rows _ _ _) as [l|e]; cbn [bind]; [|done].
    destruct (fillna_rows fillna_defaults
                {| columns := columns df3; rows := l |}) as [-> _].
    cbn [columns rows]. unfold df3. by rewrite rename_column_columns.
  - unfold df3. rewrite rename_column_rows. unfold df2. cbn [rows columns].
    rewrite !filter_fmap, <- !list_fmap_compose. unfold kept_rows.
    f_equal. apply filter_ext. intros r. unfold notna_all. simpl.
    unfold date_row.
    rewrite !cell_rename_row, !cell_insert_ne by done. done.
Qed.

(** *** One row *)

Lemma fold_fillna_lookup cols defaults (r : record) c :
  c ∉ defaults.*1 →
  fold_left (fillna_row cols) defaults r !! c = r !! c.
Proof.
  revert r. induction defaults as [|[c' d] defaults IH]; intros r Hc;
    cbn [fold_left]; [done|].
  rewrite fmap_cons, not_elem_of_cons in Hc. destruct Hc as [Hne Hc].
  rewrite IH by done. unfold fillna_row. case_bool_decide; [|done].
  by rewrite lookup_insert_ne.
Qed.

(** The columns the stage coerces have no default. *)
Lemma coerced_without_default c :
  c ∈ ["Order_Date"; "Cost"; "Sales"; "Order_Number"] →
  c ∉ fillna_defaults.*1.
Proof.
  intros Hc. repeat (apply elem_of_cons in Hc as [->|Hc]);
    [apply (bool_decide_unpack _); vm_compute; exact I..|].
  by apply elem_of_nil in Hc.
Qed.

Lemma cell_fillna cols (r : record) c :
  c ∈ ["Order_Date"; "Cost"; "Sales"; "Order_Number"] →
  cell (fold_left (fillna_row cols) fillna_defaults r) c = cell r c.
Proof.
  intros Hc. unfold cell.
  by rewrite fold_fillna_lookup by by apply coerced_without_default.
Qed.

Lemma py_int_raise v e : py_int v = Raise e → ∃ msg, e = ValueError msg.
Proof.
  destruct v as [|z|q|s]; cbn [py_int]; try discriminate.
  - intros [= <-]. eauto.
  - destruct (int_of_string s); [discriminate|]. intros [= <-]. eauto.
Qed.

Section one_row.
Context (cols : gset string).

Lemma cell_normalize_row r :
  cell (normalize_row cols r) "Order_Date"
    = to_datetime_strftime (cell r "Order_Date")
  ∧ cell (normalize_row cols r) "Cost" = to_numeric (cell r "Cost")
  ∧ cell (normalize_row cols r) "Sales" = to_numeric (cell r "Sales")
  ∧ cell (normalize_row cols r) "Order_Number" = cell r "Order_Number".
Proof.
  unfold normalize_row, sales_row, cost_row, date_row.
  repeat split;
    repeat first
      [ rewrite cell_insert_eq
      | rewrite cell_insert_ne by done
      | rewrite cell_rename_row by done ]; reflexivity.
Qed.

Lemma clean_row_cells r r' :
  clean_row cols r = Ok r' →
  cell r' "Order_Date" = to_datetime_strftime (cell r "Order_Date")
  ∧ cell r' "Cost" = to_numeric (cell r "Cost")
  ∧ cell r' "Sales" = to_numeric (cell r "Sales")
  ∧ ∃ z, py_int (cell r "Order_Number") = Ok z
         ∧ r' !! "Order_Number" = Some (VStr (py_str z)).
Proof.
  unfold clean_row. cbv zeta.
  destruct (cell_normalize_row r) as (Hd & Hc & Hs & Hn).
  rewrite Hn. unfold astype_int_str.
  destruct (py_int (cell r "Order_Number")) as [z|e]; cbn [bind];
    [|discriminate].
  intros <-%Ok_inj.
  rewrite !cell_fillna by set_solver.
  rewrite !cell_insert_ne by done.
  split; [exact Hd|]. split; [exact Hc|]. split; [exact Hs|].
  exists z. split; [done|].
  rewrite fold_fillna_lookup by (apply coerced_without_default; set_solver).
  by rewrite lookup_insert_eq.
Qed.

Lemma clean_row_raise r e :
  clean_row cols r = Raise e →
  py_int (cell r "Order_Number") = Raise e ∧ ∃ msg, e = ValueError msg.
Proof.
  unfold clean_row. cbv zeta.
  destruct (cell_normalize_row r) as (_ & _ & _ & ->).
  unfold astype_int_str.
  destruct (py_int (cell r "Order_Number")) as [z|e'] eqn:E; cbn [bind];
    [discriminate|].
  intros [= <-]. split; [done|]. by apply py_int_raise in E.
Qed.

Lemma clean_row_ok r z :
  py_int (cell r "Order_Number") = Ok z → ∃ r', clean_row cols r = Ok r'.
Proof.
  intros H. destruct (clean_row cols r) as [r'|e] eqn:E; [by exists r'|].
  apply clean_row_raise in E as [E _]. congruence.
Qed.

End one_row.

(** *** All the rows *)

Lemma traverse_Forall2 {A B : Type} (f : A → result B) l out :
  traverse f l = Ok out → Forall2 (λ a b, f a = Ok b) l out.
Proof.
  revert out. induction l as [|a l IH]; intros out; simpl.
  - intros [= <-]. constructor.
  - destruct (f a) as [b|e] eqn:E; cbn [bind]; [|discriminate].
    destruct (traverse f l) as [bs|e]; cbn [bind]; [|discriminate].
    intros [= <-]. constructor; auto.
Qed.

Lemma traverse_total {A B : Type} (f : A → result B) l :
  (∀ a, a ∈ l → ∃ b, f a = Ok b) → ∃ out, traverse f l = Ok out.
Proof.
  induction l as [|a l IH]; intros H; simpl; [by eexists|].
  destruct (H a) as [b ->]; [by left|]. cbn [bind].
  destruct IH as [bs ->]; [intros; apply H; by right|]. by eexists.
Qed.

Lemma traverse_raise {A B : Type} (f : A → result B) l a e :
  a ∈ l → f a = Raise e →
  ∃ a' e', a' ∈ l ∧ f a' = Raise e' ∧ traverse f l = Raise e'.
Proof.
  induction l as [|a0 l IH]; intros Ha Hf; [by apply elem_of_nil in Ha|].
  simpl. destruct (f a0) as [b|e0] eqn:E0; cbn [bind].
  - apply elem_of_cons in Ha as [->|Ha]; [congruence|].
    destruct (IH Ha Hf) as (a' & e' & Ha' & Hf' & ->).
    exists a', e'. split; [by right|]. by split.
  - exists a0, e0. split; [by left|]. by split.
Qed.

Lemma row_eqb_refl cols r : row_eqb cols r r = true.
Proof.
  unfold row_eqb. apply forallb_forall. intros c _. apply value_eqb_refl.
Qed.

Lemma row_eqb_cell (cols : gset string) (r r0 : record) c :
  row_eqb (elements cols) r r0 = true → c ∈ cols →
  value_eqb (cell r c) (cell r0 c) = true.
Proof.
  unfold row_eqb. rewrite forallb_forall. intros H Hc. apply H.
  by apply list_elem_of_In, elem_of_elements.
Qed.

Lemma drop_seen_sublist cols seen l : sublist (drop_seen cols seen l) l.
Proof.
  revert seen. induction l as [|r l IH]; intros seen; simpl; [done|].
  destruct (existsb _ seen); by constructor.
Qed.

(** Every row has an equal row among the ones seen or the ones that stay. *)
Lemma drop_seen_representative cols seen l r :
  r ∈ l →
  ∃ r0, (r0 ∈ seen ∨ r0 ∈ drop_seen cols seen l) ∧ row_eqb cols r r0 = true.
Proof.
  revert seen. induction l as [|r1 l IH]; intros seen Hr;
    [by apply elem_of_nil in Hr|].
  simpl. destruct (existsb (row_eqb cols r1) seen) eqn:E.
  - apply elem_of_cons in Hr as [->|Hr]; [|by apply IH].
    apply existsb_exists in E as (r0 & H0 & E).
    exists r0. split; [left; by apply list_elem_of_In|done].
  - apply elem_of_cons in Hr as [->|Hr].
    + exists r1. split; [right; by left|apply row_eqb_refl].
    + destruct (IH (r1 :: seen) Hr) as (r0 & [H0|H0] & E0).
      * apply elem_of_cons in H0 as [->|H0].
        -- exists r1. split; [right; by left|done].
        -- exists r0. split; [by left|done].
      * exists r0. split; [right; by right|done].
Qed.

Lemma sublist_filter_l {A : Type} (P : A → bool) (l : list A) :
  sublist (List.filter P l) l.
Proof.
  induction l as [|a l IH]; simpl; [done|]. destruct (P a); by constructor.
Qed.

Lemma kept_rows_sublist df : sublist (kept_rows df) (rows df).
Proof.
  unfold kept_rows. etrans; [apply sublist_filter_l|apply drop_seen_sublist].
Qed.

Lemma kept_rows_notna df r :
  r ∈ kept_rows df →
  isna (cell r "Cost") = false ∧ isna (cell r "Sales") = false.
Proof.
  unfold kept_rows. rewrite list_elem_of_In, filter_In.
  unfold notna_all. simpl. rewrite !andb_true_iff, !negb_true_iff.
  tauto.
Qed.

(** A cell that is not NaN sits in a column of the frame. *)
Lemma notna_has_column data r c :
  r ∈ rows (pd_DataFrame data) → isna (cell r c) = false →
  has_column c (pd_DataFrame data) = true.
Proof.
  intros Hr Hc. unfold has_column. apply bool_decide_eq_true.
  destruct (decide (c ∈ columns (pd_DataFrame data))) as [|Hn]; [done|].
  exfalso. simpl in Hr. apply list_elem_of_fmap in Hr as (r1 & -> & Hr1).
  assert (r1 !! c = None) as Hr1c.
  { apply eq_None_not_Some. intros Hs. apply Hn.
    apply elem_of_columns_pd_DataFrame. by exists r1. }
  unfold cell in Hc.
  rewrite (proj2 (lookup_union_None r1 _ c)) in Hc; [discriminate|].
  split; [done|]. by apply lookup_gset_to_gmap_None.
Qed.

(** What a successful [transform_data] says of the frame and the output. *)
Lemma transform_data_Some staged out :
  transform_data staged = Ok (Some out) →
  let df := pd_DataFrame staged in
  has_column "Order_Date" df = true
  ∧ has_column "Order_Number" df = true
  ∧ traverse (clean_row (columns df)) (kept_rows df) = Ok out.
Proof.
  rewrite transform_data_cases. cbv zeta.
  destruct (has_column "Order_Date" _); simpl negb; cbv iota; [|discriminate].
  destruct (has_column "Cost" _); simpl negb; cbv iota; [|discriminate].
  destruct (has_column "Sales" _); simpl negb; cbv iota; [|discriminate].
  destruct (has_column "Order_Number" _); simpl negb; cbv iota;
    [|discriminate].
  destruct (traverse _ _) as [out'|e]; cbn [bind]; [|discriminate].
  by intros [= ->].
Qed.

(** A row with Cost and Sales has an equal row that is cleaned into the
    output. *)
Lemma transform_data_survives staged out r :
  transform_data staged = Ok (Some out) →
  r ∈ rows (pd_DataFrame staged) →
  isna (cell r "Cost") = false → isna (cell r "Sales") = false →
  ∃ r0 r',
    r0 ∈ kept_rows (pd_DataFrame staged)
    ∧ row_eqb (elements (columns (pd_DataFrame staged))) r r0 = true
    ∧ clean_row (columns (pd_DataFrame staged)) r0 = Ok r'
    ∧ r' ∈ out.
Proof.
  intros Ht Hr Hc Hs.
  destruct (transform_data_Some _ _ Ht) as (_ & _ & Hout).
  apply traverse_Forall2 in Hout.
  destruct (drop_seen_representative
              (elements (columns (pd_DataFrame staged))) [] _ r Hr)
    as (r0 & [H0|H0] & E); [by apply elem_of_nil in H0|].
  assert (Hk : r0 ∈ kept_rows (pd_DataFrame staged)).
  { unfold kept_rows. apply list_elem_of_In, filter_In.
    split; [by apply list_elem_of_In|].
    unfold notna_all. simpl.
    rewrite <- (value_eqb_isna _ _ (row_eqb_cell _ r r0 "Cost" E
      (has_column_elem _ _ (notna_has_column _ _ _ Hr Hc)))).
    rewrite <- (value_eqb_isna _ _ (row_eqb_cell _ r r0 "Sales" E
      (has_column_elem _ _ (notna_has_column _ _ _ Hr Hs)))).
    by rewrite Hc, Hs. }
  destruct (proj1 (list_elem_of_lookup _ _) Hk) as [i Hi].
  destruct (Forall2_lookup_l _ _ _ _ _ Hout Hi) as (r' & Hi' & Hclean).
  exists r0, r'. repeat split; try done.
  by apply list_elem_of_lookup_2 in Hi'.
Qed.

(** ** The transform stage: the claims *)

Lemma py_int_value_eqb v w e :
  value_eqb v w = true → py_int v = Raise e → py_int w = Raise e.
Proof.
  destruct v, w; simpl; try discriminate; try done.
  intros ->%String.eqb_eq. done.
Qed.

(** C3, as the code has it, on batches whose Order_Number cells are NaN,
    numbers or plain text and, where [int] takes them, integers of 64 bits.
    The records the transform stage puts out are, one for one and in order,
    those of the rows it keeps, and the Order_Number of each is the decimal
    text [str(int(k))] of the key [k] of its row, with the sign of [k].
    And when the batch has the Order_Date and Order_Number columns and some
    row with a Cost and a Sales has an Order_Number that [int] does not
    take, the stage raises a ValueError as a whole and puts out nothing,
    for no record of the batch. *)
Theorem transform_data_order_number (staged : list record) :
  plain_keys (pd_DataFrame staged) = true →
  (∀ out, transform_data staged = Ok (Some out) →
     Forall2 (λ r r', ∃ z, py_int (cell r "Order_Number") = Ok z
                           ∧ r' !! "Order_Number" = Some (VStr (py_str z)))
       (kept_rows (pd_DataFrame staged)) out)
  ∧ (∀ r e,
       has_column "Order_Date" (pd_DataFrame staged) = true →
       has_column "Order_Number" (pd_DataFrame staged) = true →
       r ∈ rows (pd_DataFrame staged) →
       isna (cell r "Cost") = false → isna (cell r "Sales") = false →
       py_int (cell r "Order_Number") = Raise e →
       ∃ msg, transform_data staged = Raise (ValueError msg)).
Proof.
  intros _. split.
  - intros out Ht.
    destruct (transform_data_Some _ _ Ht) as (_ & _ & Hout).
    apply traverse_Forall2 in Hout.
    eapply Forall2_impl; [exact Hout|]. intros r r' Hclean. cbv beta in Hclean.
    by destruct (clean_row_cells _ _ _ Hclean) as (_ & _ & _ & Hz).
  - intros r e Hd Hn Hr Hc Hs Hint.
    rewrite transform_data_cases. cbv zeta. rewrite Hd, Hn.
    rewrite (notna_has_column _ _ _ Hr Hc), (notna_has_column _ _ _ Hr Hs).
    simpl negb. cbv iota.
    destruct (drop_seen_representative
                (elements (columns (pd_DataFrame staged))) [] _ r Hr)
      as (r0 & [H0|H0] & E); [by apply elem_of_nil in H0|].
    assert (Hcell : ∀ c, has_column c (pd_DataFrame staged) = true →
              value_eqb (cell r c) (cell r0 c) = true).
    { intros c Hcol. apply (row_eqb_cell _ r r0 c E).
      by apply has_column_elem. }
    assert (Hk : r0 ∈ kept_rows (pd_DataFrame staged)).
    { unfold kept_rows. apply list_elem_of_In, filter_In.
      split; [by apply list_elem_of_In|]. unfold notna_all. simpl.
      rewrite <- (value_eqb_isna _ _
        (Hcell "Cost" (notna_has_column _ _ _ Hr Hc))).
      rewrite <- (value_eqb_isna _ _
        (Hcell "Sales" (notna_has_column _ _ _ Hr Hs))).
      by rewrite Hc, Hs. }
    assert (Hraise : ∃ e0, clean_row (columns (pd_DataFrame staged)) r0
                           = Raise e0).
    { destruct (clean_row _ r0) as [r'|e0] eqn:Ec; [|by exists e0].
      destruct (clean_row_cells _ _ _ Ec) as (_ & _ & _ & z & Hz & _).
      rewrite (py_int_value_eqb _ _ _ (Hcell "Order_Number" Hn) Hint) in Hz.
      discriminate. }
    destruct Hraise as [e0 He0].
    destruct (traverse_raise _ _ _ _ Hk He0) as (r1 & e1 & _ & He1 & ->).
    destruct (clean_row_raise _ _ _ He1) as (_ & msg & ->).
    by exists msg.
Qed.

(** C3, as the claim has it, fails twice: the key -5 comes out as "-5",
    which is the text of no non-negative integer; and with a key "abc" in
    the batch the stage raises for the batch, so that the record "1001"
    next to it is not put out either. *)
Lemma transform_data_negative_key_and_whole_batch :
  transform_data [order_minus_5]
    = Ok (Some [cleaned (VStr "-5") (VStr "2024-01-31") (VInt 10) (VInt 15)])
  ∧ (∀ n, 0 ≤ n → py_str n ≠ "-5")
  ∧ transform_data [order_abc; order_1001]
    = Raise (ValueError "invalid literal for int() with base 10")
  ∧ transform_data [order_1001]
    = Ok (Some [cleaned (VStr "1001") (VStr "2024-01-31")
                  (VInt 10) (VInt 15)]).
Proof.
  split; [by_evaluation|]. split; [|split; by_evaluation].
  intros n Hn E. change "-5" with (py_str (-5)) in E.
  apply (inj pretty) in E. lia.
Qed.

(** C4, as the code has it. Rows are dropped for a NaN Cost or Sales at
    line 87, before Cost and Sales are coerced at lines 90 and 91: a staged
    row whose Cost is a string that is no number (and none of the names of
    infinity, which [to_numeric] reads as a float) and whose Sales is not
    NaN is not dropped.  When the stage puts out a batch, that batch holds
    the cleaned form of the row (of the first of the rows equal to it),
    with NaN for Cost. *)
Theorem transform_data_keeps_unparsable_cost
    (staged out : list record) (r : record) (s : string) :
  transform_data staged = Ok (Some out) →
  r ∈ rows (pd_DataFrame staged) →
  cell r "Cost" = VStr s →
  number_of_string s = None → is_infinity_literal s = false →
  isna (cell r "Sales") = false →
  notna_all ["Cost"; "Sales"] r = true
  ∧ ∃ r0 r',
      r0 ∈ kept_rows (pd_DataFrame staged)
      ∧ row_eqb (elements (columns (pd_DataFrame staged))) r r0 = true
      ∧ clean_row (columns (pd_DataFrame staged)) r0 = Ok r'
      ∧ r' ∈ out
      ∧ cell r' "Cost" = VNull.
Proof.
  intros Ht Hr Hc Hnum _ Hs.
  assert (Hna : isna (cell r "Cost") = false) by by rewrite Hc.
  split; [unfold notna_all; simpl; by rewrite Hna, Hs|].
  destruct (transform_data_survives _ _ _ Ht Hr Hna Hs)
    as (r0 & r' & Hk & E & Hclean & Hr').
  exists r0, r'. repeat split; try done.
  destruct (clean_row_cells _ _ _ Hclean) as (_ & -> & _).
  pose proof (row_eqb_cell _ r r0 "Cost" E
    (has_column_elem _ _ (notna_has_column _ _ _ Hr Hna))) as Hv.
  rewrite Hc in Hv. destruct (cell r0 "Cost"); simpl in Hv; try discriminate.
  apply String.eqb_eq in Hv as <-. simpl. by rewrite Hnum.
Qed.

(** C4, as the claim has it, fails: a Cost that is present and no number
    does not keep the row.  The row 1007 has the Cost "12 USD" and no
    Sales: line 87 drops it for the Sales, and the stage puts out an empty
    batch. *)
Lemma transform_data_unparsable_cost_dropped :
  order_text_cost_no_sales ∈ rows (pd_DataFrame [order_text_cost_no_sales])
  ∧ cell order_text_cost_no_sales "Cost" = VStr "12 USD"
  ∧ number_of_string "12 USD" = None
  ∧ is_infinity_literal "12 USD" = false
  ∧ transform_data [order_text_cost_no_sales] = Ok (Some []).
Proof.
  split; [by_evaluation|]. split; [by_evaluation|].
  split; [vm_compute; reflexivity|].
  split; [vm_compute; reflexivity|by_evaluation].
Qed.

Lemma bind_params_lookup params (r row : record) p :
  bind_params params r = Ok row → p ∈ params → row !! p = r !! p.
Proof.
  revert row. induction params as [|q params IH]; intros row; simpl.
  - intros _ H. by apply elem_of_nil in H.
  - destruct (r !! q) as [v|] eqn:E; [|discriminate].
    destruct (bind_params params r) as [bound|]; cbn [bind]; [|discriminate].
    intros [= <-] Hp. destruct (decide (q = p)) as [->|Hne].
    + by rewrite lookup_insert_eq.
    + rewrite lookup_insert_ne by done. apply IH; [done|].
      apply elem_of_cons in Hp as [?|?]; congruence.
Qed.

Lemma cell_pad (r : record) (cols : gset string) c :
  cell (r ∪ gset_to_gmap VNull cols) c = cell r c.
Proof.
  unfold cell. destruct (r !! c) as [v|] eqn:E.
  - by rewrite (pad_lookup _ _ _ _ E).
  - rewrite lookup_union_r by done.
    destruct (gset_to_gmap VNull cols !! c) as [w|] eqn:Ew; [|done].
    by apply lookup_gset_to_gmap_Some in Ew as [_ <-].
Qed.

(** C5. An empty Cost field of the file is read by [read_csv] as NaN, and
    this is the Cost a staged record has for it.  A staged row whose Cost
    (or Sales) is NaN is dropped at line 87: the records the stage puts out
    are, one for one and in order, the cleaned forms of staged rows with a
    Cost and a Sales that are not NaN; and every row the upsert stage adds
    to the destination carries, parameter by parameter, a record of that
    output.  So no row with an empty Cost reaches the destination. *)
Theorem transform_data_drops_nan_cost
    (staged out table : list record) :
  transform_data staged = Ok (Some out) →
  (∃ kept,
     sublist kept (rows (pd_DataFrame staged))
     ∧ Forall (λ r, isna (cell r "Cost") = false
                    ∧ isna (cell r "Sales") = false) kept
     ∧ Forall2 (λ r r', clean_row (columns (pd_DataFrame staged)) r = Ok r')
         kept out)
  ∧ ∃ added,
      (load_transformed_data_to_postgresql (Some out) table).1
        = table ++ added
      ∧ ∀ row, row ∈ added →
          ∃ r', r' ∈ out ∧ ∀ p, p ∈ upsert_params → cell row p = cell r' p.
Proof.
  intros Ht. split.
  - exists (kept_rows (pd_DataFrame staged)).
    split; [apply kept_rows_sublist|]. split.
    + apply Forall_forall. intros r Hr. exact (kept_rows_notna _ _ Hr).
    + apply traverse_Forall2. by apply transform_data_Some.
  - unfold load_transformed_data_to_postgresql.
    destruct (iterrows_execute_prefix
                (rows (xcom_frame (Some out))) table) as (added & -> & Ha).
    exists added. split; [done|]. intros row Hrow.
    destruct (Ha row Hrow) as (r & Hr & Hb).
    simpl in Hr. apply list_elem_of_fmap in Hr as (r' & -> & Hr').
    exists r'. split; [done|]. intros p Hp. unfold cell at 1.
    rewrite (bind_params_lookup _ _ _ _ Hb Hp).
    apply cell_pad.
Qed.

(** Scenario D: the row with an empty (NaN) Cost is dropped, the row next
    to it goes through. *)
Example transform_data_scenario_D :
  transform_data [order_no_cost; order_1001]
  = Ok (Some [cleaned (VStr "1001") (VStr "2024-01-31") (VInt 10) (VInt 15)]).
Proof. by_evaluation. Qed.

(** ** Dates *)

Lemma split_on_free sep s : free_of sep s = true → split_on sep s = [s].
Proof.
  induction s as [|c s IH]; simpl; [done|].
  rewrite andb_true_iff, negb_true_iff. intros [-> Hs]. by rewrite IH.
Qed.

Lemma split_on_append sep s rest :
  free_of sep s = true →
  split_on sep (s +:+ String sep EmptyString +:+ rest)
  = s :: split_on sep rest.
Proof.
  induction s as [|c s IH]; simpl.
  - intros _. by rewrite Ascii.eqb_refl.
  - rewrite andb_true_iff, negb_true_iff. intros [-> Hs]. by rewrite IH.
Qed.

Lemma Z_range_forallb (P : Z → bool) (lo len : Z) :
  forallb P (seqZ lo len) = true → ∀ n, lo ≤ n < lo + len → P n = true.
Proof.
  rewrite forallb_forall. intros H n Hn. apply H.
  apply list_elem_of_In, elem_of_seqZ. lia.
Qed.

Lemma parses_to_Some o n : parses_to o n = true → o = Some n.
Proof.
  destruct o as [k|]; simpl; [|done]. by intros ->%Z.eqb_eq.
Qed.

Lemma pad2_day_or_month space hi n :
  1 ≤ n ≤ hi → hi ≤ 99 →
  day_or_month space hi (pad2 n) = Some n ∧ free_of "/" (pad2 n) = true.
Proof.
  intros Hn Hhi.
  assert (H : parses_to (day_or_month space 99 (pad2 n)) n
              && free_of "/" (pad2 n) = true).
  { apply (Z_range_forallb
             (λ n, parses_to (day_or_month space 99 (pad2 n)) n
                   && free_of "/" (pad2 n)) 1 99); [|lia].
    destruct space; vm_compute; reflexivity. }
  apply andb_true_iff in H as [H1 H2]. split; [|done].
  apply parses_to_Some in H1. revert H1.
  unfold day_or_month.
  destruct (match pad2 n with "" => _ | String a b => _ end) as [k|];
    simpl; [|done].
  destruct (decide (1 ≤ k ≤ 99)) as [Hk|Hk].
  - rewrite (proj2 (andb_true_iff (1 <=? k) (k <=? 99)))
      by (split; lia). intros [= ->].
    by rewrite (proj2 (andb_true_iff (1 <=? n) (n <=? hi))) by (split; lia).
  - destruct ((1 <=? k) && (k <=? 99)) eqn:E; [|done].
    apply andb_true_iff in E. lia.
Qed.

Lemma pad4_year_digits y :
  0 ≤ y ≤ 9999 →
  year_digits (pad4 y) = Some y ∧ free_of "/" (pad4 y) = true.
Proof.
  intros Hy.
  assert (H : parses_to (year_digits (pad4 y)) y
              && free_of "/" (pad4 y) = true).
  { apply (Z_range_forallb
             (λ y, parses_to (year_digits (pad4 y)) y
                   && free_of "/" (pad4 y)) 0 10000); [|lia].
    vm_compute. reflexivity. }
  apply andb_true_iff in H as [H1 H2]. by apply parses_to_Some in H1.
Qed.

Lemma valid_date_bounds y m d :
  valid_date y m d = true → 1 ≤ d ≤ 31 ∧ 1 ≤ m ≤ 12 ∧ 1677 ≤ y ≤ 2262.
Proof.
  unfold valid_date, in_timestamp_range, days_in_month.
  rewrite !andb_true_iff, !Z.leb_le.
  intros ((((Hm1 & Hm2) & Hd1) & Hd2) & Hlo & Hhi).
  assert (d ≤ 31).
  { destruct (m =? 2); [destruct (is_leap y); lia|].
    destruct ((m =? 4) || (m =? 6) || (m =? 9) || (m =? 11)); lia. }
  lia.
Qed.

Lemma strptime_dmy_text y m d :
  valid_date y m d = true → strptime_dmy (dmy_text y m d) = Some (y, m, d).
Proof.
  intros Hv. destruct (valid_date_bounds _ _ _ Hv) as (Hd & Hm & Hy).
  destruct (pad2_day_or_month true 31 d) as [Pd Fd]; [lia..|].
  destruct (pad2_day_or_month false 12 m) as [Pm Fm]; [lia..|].
  destruct (pad4_year_digits y) as [Py Fy]; [lia|].
  unfold strptime_dmy, dmy_text.
  rewrite (split_on_append _ _ _ Fd), (split_on_append _ _ _ Fm),
    (split_on_free _ _ Fy).
  rewrite Pd, Pm, Py. simpl. by rewrite Hv.
Qed.

Lemma to_datetime_strftime_value_eqb v w :
  value_eqb v w = true → to_datetime_strftime v = to_datetime_strftime w.
Proof.
  destruct v, w; simpl; try discriminate; try done.
  by intros ->%String.eqb_eq.
Qed.

(** C9. A date written day/month/year, as [dmy_text] writes it, becomes
    the same date written year-month-day; a value that is no such date
    becomes NaN; and the step drops no row: a staged row with a Cost and a
    Sales comes out cleaned, whatever its Order_Date, with the Order_Date
    the conversion gives. *)
Theorem to_datetime_strftime_order_date :
  (∀ y m d, valid_date y m d = true →
     to_datetime_strftime (VStr (dmy_text y m d))
     = VStr (pad4 y +:+ "-" +:+ pad2 m +:+ "-" +:+ pad2 d))
  ∧ (∀ v, (∀ s, v = VStr s → strptime_dmy s = None) →
       to_datetime_strftime v = VNull)
  ∧ (∀ staged out r,
       transform_data staged = Ok (Some out) →
       r ∈ rows (pd_DataFrame staged) →
       isna (cell r "Cost") = false → isna (cell r "Sales") = false →
       ∃ r0 r',
         r0 ∈ kept_rows (pd_DataFrame staged)
         ∧ row_eqb (elements (columns (pd_DataFrame staged))) r r0 = true
         ∧ clean_row (columns (pd_DataFrame staged)) r0 = Ok r'
         ∧ r' ∈ out
         ∧ cell r' "Order_Date" = to_datetime_strftime (cell r "Order_Date")).
Proof.
  split; [|split].
  - intros y m d Hv. unfold to_datetime_strftime.
    by rewrite (strptime_dmy_text _ _ _ Hv).
  - intros [| | |s] H; simpl; try done. by rewrite (H s eq_refl).
  - intros staged out r Ht Hr Hc Hs.
    destruct (transform_data_survives _ _ _ Ht Hr Hc Hs)
      as (r0 & r' & Hk & E & Hclean & Hr').
    exists r0, r'. repeat split; try done.
    destruct (clean_row_cells _ _ _ Hclean) as (-> & _).
    symmetry. apply to_datetime_strftime_value_eqb.
    apply (row_eqb_cell _ r r0 "Order_Date" E).
    apply has_column_elem. by apply transform_data_Some in Ht as (? & _).
Qed.

(** Scenario C, and a date in another form next to it: the date becomes
    NaN and the record stays. *)
Example transform_data_scenario_C :
  transform_data [order_1001; order_bad_date]
  = Ok (Some [cleaned (VStr "1001") (VStr "2024-01-31") (VInt 10) (VInt 15);
              cleaned (VStr "1005") VNull (VInt 10) (VInt 15)]).
Proof. by_evaluation. Qed.

(** ** Truncation *)

Lemma trunc_Qeq p q : (p == q)%Q → trunc p = trunc q.
Proof.
  unfold Qeq, trunc. intros H.
  rewrite <- (Z.quot_mul_cancel_r (Qnum p) (Z.pos (Qden p)) (Z.pos (Qden q)))
    by lia.
  rewrite <- (Z.quot_mul_cancel_r (Qnum q) (Z.pos (Qden q)) (Z.pos (Qden p)))
    by lia.
  rewrite H. f_equal. lia.
Qed.

Lemma trunc_inject_Z z : trunc (inject_Z z) = z.
Proof. unfold trunc. simpl. apply Z.quot_1_r. Qed.

Lemma trunc_bounds q :
  ((0 <= q → inject_Z (trunc q) <= q ∧ q < inject_Z (trunc q + 1))
   ∧ (q <= 0 → inject_Z (trunc q - 1) < q ∧ q <= inject_Z (trunc q)))%Q.
Proof.
  destruct q as [n d]. unfold trunc, Qle, Qlt. simpl.
  rewrite !Z.mul_1_r.
  pose proof (Z.quot_rem' n (Z.pos d)) as Hqr.
  set (z := Z.quot n (Z.pos d)) in *. set (t := Z.rem n (Z.pos d)) in *.
  split; intros Hn.
  - assert (0 ≤ t < Z.pos d) by (apply Z.rem_bound_pos; lia). nia.
  - assert (- Z.pos d < t ≤ 0) by (apply Z.rem_bound_pos_neg; lia). nia.
Qed.

Lemma py_int_value_eqb_float q w :
  value_eqb (VFloat q) w = true → py_int w = Ok (trunc q).
Proof.
  destruct w as [|b|q'|s]; simpl; try discriminate.
  - intros H%Qeq_bool_iff. by rewrite (trunc_Qeq _ _ H), trunc_inject_Z.
  - intros H%Qeq_bool_iff. by rewrite (trunc_Qeq _ _ H).
Qed.

(** C10. On a float the coercion of the key does not raise: it gives the
    text of the float truncated toward zero, the integer between zero and
    the float that is less than one away from it.  A staged row with such a
    key, a Cost and a Sales comes out with that text for Order_Number; and
    a batch all of whose keys are numbers, with its four columns, is put
    out. *)
Theorem astype_int_str_truncates :
  (∀ q, astype_int_str (VFloat q) = Ok (VStr (py_str (trunc q))))
  ∧ (∀ q,
      (0 <= q → inject_Z (trunc q) <= q ∧ q < inject_Z (trunc q + 1))
      ∧ (q <= 0 → inject_Z (trunc q - 1) < q ∧ q <= inject_Z (trunc q)))%Q
  ∧ (∀ staged out r q,
       transform_data staged = Ok (Some out) →
       r ∈ rows (pd_DataFrame staged) →
       isna (cell r "Cost") = false → isna (cell r "Sales") = false →
       cell r "Order_Number" = VFloat q →
       ∃ r', r' ∈ out
             ∧ r' !! "Order_Number" = Some (VStr (py_str (trunc q))))
  ∧ (∀ staged,
       has_column "Order_Date" (pd_DataFrame staged) = true →
       has_column "Cost" (pd_DataFrame staged) = true →
       has_column "Sales" (pd_DataFrame staged) = true →
       has_column "Order_Number" (pd_DataFrame staged) = true →
       (∀ r, r ∈ rows (pd_DataFrame staged) →
          is_Some (number (cell r "Order_Number"))) →
       ∃ out, transform_data staged = Ok (Some out)).
Proof.
  split; [done|]. split; [apply trunc_bounds|]. split.
  - intros staged out r q Ht Hr Hc Hs Hq.
    destruct (transform_data_survives _ _ _ Ht Hr Hc Hs)
      as (r0 & r' & Hk & E & Hclean & Hr').
    exists r'. split; [done|].
    destruct (clean_row_cells _ _ _ Hclean) as (_ & _ & _ & z & Hz & ->).
    assert (Hv : value_eqb (VFloat q) (cell r0 "Order_Number") = true).
    { rewrite <- Hq. apply (row_eqb_cell _ r r0 "Order_Number" E).
      apply has_column_elem.
      by apply transform_data_Some in Ht as (_ & ? & _). }
    rewrite (py_int_value_eqb_float _ _ Hv) in Hz. by simplify_eq.
  - intros staged Hd Hc Hs Hn Hnum.
    rewrite transform_data_cases. cbv zeta. rewrite Hd, Hc, Hs, Hn.
    simpl negb. cbv iota.
    destruct (traverse_total (clean_row (columns (pd_DataFrame staged)))
                (kept_rows (pd_DataFrame staged))) as [out ->];
      [|by exists out].
    intros r Hr.
    assert (Hr' : r ∈ rows (pd_DataFrame staged)).
    { eapply elem_of_sublist; [exact Hr|apply kept_rows_sublist]. }
    destruct (Hnum r Hr') as [x Hx].
    destruct (cell r "Order_Number") as [|z|q|s] eqn:E; try discriminate.
    + apply (clean_row_ok _ r z). by rewrite E.
    + apply (clean_row_ok _ r (trunc q)). by rewrite E.
Qed.

(** The key 1001.7 comes out as "1001". *)
Example transform_data_fractional_key :
  transform_data [order_1001_7]
  = Ok (Some [cleaned (VStr "1001") (VStr "2024-01-31") (VInt 10) (VInt 15)]).
Proof. by_evaluation. Qed.

(** ** The theorems at concrete batches *)

Lemma run_pipeline_idempotent_witness :
  (∀ k, count_key k [row_2002] ≤ 1)%nat
  ∧ (run_pipeline [order_1001; order_2002]
       (run_pipeline [order_1001; order_2002]
          {| staging := []; destination := [row_2002] |}).1).1
      = (run_pipeline [order_1001; order_2002]
           {| staging := []; destination := [row_2002] |}).1
  ∧ (∀ k, count_key k
        (destination
           (run_pipeline [order_1001; order_2002]
              {| staging := []; destination := [row_2002] |}).1) ≤ 1)%nat
  ∧ (∀ k, count_key k
        (destination
           (run_pipeline [order_1001; order_2002]
              (run_pipeline [order_1001; order_2002]
                 {| staging := []; destination := [row_2002] |}).1).1)
        ≤ 1)%nat.
Proof.
  assert (H : ∀ k, (count_key k [row_2002] ≤ 1)%nat).
  { intros k. unfold count_key. cbn [List.filter].
    destruct (sql_eq (cell row_2002 "Order_Number") k); cbn [length]; lia. }
  split; [exact H|].
  exact (run_pipeline_idempotent [order_1001; order_2002]
           {| staging := []; destination := [row_2002] |} H).
Defined.

(** Two runs on a destination that has "2002" already: "1001" is added
    once, "2002" is left as it was. *)
Example run_pipeline_twice :
  (run_pipeline [order_1001; order_2002]
     (run_pipeline [order_1001; order_2002]
        {| staging := []; destination := [row_2002] |}).1).1
  = {| staging := [order_1001; order_2002];
       destination :=
         [row_2002;
          cleaned (VStr "1001") (VStr "2024-01-31") (VInt 10) (VInt 15)] |}.
Proof. by_evaluation. Qed.


Lemma transform_data_order_number_witness :
  (plain_keys (pd_DataFrame [order_minus_5; order_1001]) = true
   ∧ transform_data [order_minus_5; order_1001]
     = Ok (Some [cleaned (VStr "-5") (VStr "2024-01-31") (VInt 10) (VInt 15);
                 cleaned (VStr "1001") (VStr "2024-01-31")
                   (VInt 10) (VInt 15)]))
  ∧ Forall2 (λ r r', ∃ z, py_int (cell r "Order_Number") = Ok z
                          ∧ r' !! "Order_Number" = Some (VStr (py_str z)))
      (kept_rows (pd_DataFrame [order_minus_5; order_1001]))
      [cleaned (VStr "-5") (VStr "2024-01-31") (VInt 10) (VInt 15);
       cleaned (VStr "1001") (VStr "2024-01-31") (VInt 10) (VInt 15)]
  ∧ (plain_keys (pd_DataFrame [order_abc; order_1001]) = true
     ∧ has_column "Order_Date" (pd_DataFrame [order_abc; order_1001]) = true
     ∧ has_column "Order_Number" (pd_DataFrame [order_abc; order_1001]) = true
     ∧ order_abc ∈ rows (pd_DataFrame [order_abc; order_1001])
     ∧ isna (cell order_abc "Cost") = false
     ∧ isna (cell order_abc "Sales") = false
     ∧ py_int (cell order_abc "Order_Number")
       = Raise (ValueError "invalid literal for int() with base 10"))
  ∧ ∃ msg, transform_data [order_abc; order_1001] = Raise (ValueError msg).
Proof.
  assert (H0 : plain_keys (pd_DataFrame [order_minus_5; order_1001]) = true)
    by (vm_compute; reflexivity).
  assert (H1 : transform_data [order_minus_5; order_1001]
     = Ok (Some [cleaned (VStr "-5") (VStr "2024-01-31") (VInt 10) (VInt 15);
                 cleaned (VStr "1001") (VStr "2024-01-31")
                   (VInt 10) (VInt 15)]))
    by by_evaluation.
  assert (Hp : plain_keys (pd_DataFrame [order_abc; order_1001]) = true)
    by (vm_compute; reflexivity).
  assert (H2 : has_column "Order_Date" (pd_DataFrame [order_abc; order_1001])
               = true) by (vm_compute; reflexivity).
  assert (H3 : has_column "Order_Number"
                 (pd_DataFrame [order_abc; order_1001]) = true)
    by (vm_compute; reflexivity).
  assert (H4 : order_abc ∈ rows (pd_DataFrame [order_abc; order_1001]))
    by by_evaluation.
  assert (H5 : isna (cell order_abc "Cost") = false)
    by (vm_compute; reflexivity).
  assert (H6 : isna (cell order_abc "Sales") = false)
    by (vm_compute; reflexivity).
  assert (H7 : py_int (cell order_abc "Order_Number")
               = Raise (ValueError "invalid literal for int() with base 10"))
    by by_evaluation.
  split; [exact (conj H0 H1)|].
  split;
    [exact (proj1 (transform_data_order_number
                     [order_minus_5; order_1001] H0) _ H1)|].
  split; [exact (conj Hp (conj H2 (conj H3 (conj H4 (conj H5 (conj H6 H7))))))|].
  exact (proj2 (transform_data_order_number [order_abc; order_1001] Hp)
           order_abc _ H2 H3 H4 H5 H6 H7).
Defined.

Lemma transform_data_keeps_unparsable_cost_witness :
  (transform_data [order_text_cost; order_1009]
     = Ok (Some [cleaned (VStr "1006") (VStr "2024-01-31") VNull (VInt 15);
                 cleaned (VStr "1009") (VStr "2024-01-31")
                   (VInt 10) (VInt 15)])
   ∧ order_text_cost ∈ rows (pd_DataFrame [order_text_cost; order_1009])
   ∧ cell order_text_cost "Cost" = VStr "12 USD"
   ∧ number_of_string "12 USD" = None
   ∧ is_infinity_literal "12 USD" = false
   ∧ isna (cell order_text_cost "Sales") = false)
  ∧ notna_all ["Cost"; "Sales"] order_text_cost = true
  ∧ ∃ r0 r',
      r0 ∈ kept_rows (pd_DataFrame [order_text_cost; order_1009])
      ∧ row_eqb
          (elements (columns (pd_DataFrame [order_text_cost; order_1009])))
          order_text_cost r0 = true
      ∧ clean_row (columns (pd_DataFrame [order_text_cost; order_1009])) r0
        = Ok r'
      ∧ r' ∈ [cleaned (VStr "1006") (VStr "2024-01-31") VNull (VInt 15);
              cleaned (VStr "1009") (VStr "2024-01-31") (VInt 10) (VInt 15)]
      ∧ cell r' "Cost" = VNull.
Proof.
  assert (H1 : transform_data [order_text_cost; order_1009]
     = Ok (Some [cleaned (VStr "1006") (VStr "2024-01-31") VNull (VInt 15);
                 cleaned (VStr "1009") (VStr "2024-01-31")
                   (VInt 10) (VInt 15)])) by by_evaluation.
  assert (H2 : order_text_cost
               ∈ rows (pd_DataFrame [order_text_cost; order_1009]))
    by by_evaluation.
  assert (H3 : cell order_text_cost "Cost" = VStr "12 USD") by by_evaluation.
  assert (H4 : number_of_string "12 USD" = None) by (vm_compute; reflexivity).
  assert (Hi : is_infinity_literal "12 USD" = false)
    by (vm_compute; reflexivity).
  assert (H5 : isna (cell order_text_cost "Sales") = false)
    by (vm_compute; reflexivity).
  split; [exact (conj H1 (conj H2 (conj H3 (conj H4 (conj Hi H5)))))|].
  exact (transform_data_keeps_unparsable_cost _ _ _ _ H1 H2 H3 H4 Hi H5).
Defined.

Lemma transform_data_drops_nan_cost_witness :
  transform_data [order_no_cost; order_1001]
    = Ok (Some [cleaned (VStr "1001") (VStr "2024-01-31")
                  (VInt 10) (VInt 15)])
  ∧ (∃ kept,
       sublist kept (rows (pd_DataFrame [order_no_cost; order_1001]))
       ∧ Forall (λ r, isna (cell r "Cost") = false
                      ∧ isna (cell r "Sales") = false) kept
       ∧ Forall2
           (λ r r',
              clean_row (columns (pd_DataFrame [order_no_cost; order_1001]))
                r = Ok r')
           kept
           [cleaned (VStr "1001") (VStr "2024-01-31") (VInt 10) (VInt 15)])
  ∧ ∃ added,
      (load_transformed_data_to_postgresql
         (Some [cleaned (VStr "1001") (VStr "2024-01-31")
                  (VInt 10) (VInt 15)]) [row_2002]).1
        = [row_2002] ++ added
      ∧ ∀ row, row ∈ added →
          ∃ r',
            r' ∈ [cleaned (VStr "1001") (VStr "2024-01-31")
                    (VInt 10) (VInt 15)]
            ∧ ∀ p, p ∈ upsert_params → cell row p = cell r' p.
Proof.
  assert (H : transform_data [order_no_cost; order_1001]
    = Ok (Some [cleaned (VStr "1001") (VStr "2024-01-31")
                  (VInt 10) (VInt 15)])) by by_evaluation.
  split; [exact H|].
  exact (transform_data_drops_nan_cost _ _ [row_2002] H).
Defined.

Lemma load_data_to_mysql_without_order_number_witness :
  homogeneous unkeyed_batch
  ∧ load_data_to_mysql unkeyed_batch [order_1001]
    = Raise (ValueError "Column 'Order_Number' not found in the provided data.")
  ∧ run_pipeline unkeyed_batch
      {| staging := [order_1001]; destination := [row_2002] |}
    = ({| staging := [order_1001]; destination := [row_2002] |},
       Raise (ValueError
                "Column 'Order_Number' not found in the provided data.")).
Proof.
  assert (Hh : homogeneous unkeyed_batch).
  { intros r1 r2 H1 H2.
    assert (Hd : ∀ r, r ∈ unkeyed_batch → dom r = {[ "Order_Date"; "Cost" ]}).
    { intros r Hr. unfold unkeyed_batch in Hr.
      apply elem_of_cons in Hr as [->|Hr];
        [|apply list_elem_of_singleton in Hr as ->]; by_evaluation. }
    by rewrite (Hd r1 H1), (Hd r2 H2). }
  split; [exact Hh|].
  exact (load_data_to_mysql_without_order_number unkeyed_batch
           {| staging := [order_1001]; destination := [row_2002] |}
           {[ "Order_Date" := VStr "05/03/2024"; "Cost" := VInt 5 ]}
           Hh (list_elem_of_further _ _ _ (list_elem_of_here _ _)) eq_refl).
Defined.

Lemma transform_data_without_order_date_witness :
  has_column "Order_Date" (pd_DataFrame [ {[ "Order_Number" := VInt 7 ]} ])
    = false
  ∧ transform_data [ {[ "Order_Number" := VInt 7 ]} ] = Ok None
  ∧ ∀ table,
      load_transformed_data_to_postgresql None table = (table, Ok ()).
Proof.
  split; [vm_compute; reflexivity|].
  apply (transform_data_without_order_date [ {[ "Order_Number" := VInt 7 ]} ]).
  vm_compute; reflexivity.
Defined.

Lemma execute_upsert_on_conflict_witness :
  ((∀ p, p ∈ upsert_params →
      is_Some (cleaned (VStr "2002") (VStr "2024-03-05") (VInt 7) (VInt 9)
                 !! p))
   ∧ conflicts
       (cell (cleaned (VStr "2002") (VStr "2024-03-05") (VInt 7) (VInt 9))
          "Order_Number") [row_2002] = true)
  ∧ execute_upsert
      (cleaned (VStr "2002") (VStr "2024-03-05") (VInt 7) (VInt 9))
      [row_2002] = Ok [row_2002]
  ∧ iterrows_execute
      (cleaned (VStr "2002") (VStr "2024-03-05") (VInt 7) (VInt 9)
       :: [cleaned (VStr "1001") (VStr "2024-01-31") (VInt 10) (VInt 15)])
      [row_2002]
    = iterrows_execute
        [cleaned (VStr "1001") (VStr "2024-01-31") (VInt 10) (VInt 15)]
        [row_2002]
  ∧ ∀ k, count_key k
           (iterrows_execute
              [cleaned (VStr "2002") (VStr "2024-03-05") (VInt 7) (VInt 9)]
              [row_2002]).1
         = count_key k [row_2002].
Proof.
  assert (H1 : ∀ p, p ∈ upsert_params →
            is_Some (cleaned (VStr "2002") (VStr "2024-03-05")
                       (VInt 7) (VInt 9) !! p)).
  { apply Forall_forall. by_evaluation. }
  assert (H2 : conflicts
       (cell (cleaned (VStr "2002") (VStr "2024-03-05") (VInt 7) (VInt 9))
          "Order_Number") [row_2002] = true) by (vm_compute; reflexivity).
  split; [exact (conj H1 H2)|].
  exact (execute_upsert_on_conflict _ _ _ H1 H2).
Defined.

(** Scenario E: the destination has "2002"; the batch offers "2002" again
    and "1001": one row for "2002" as before, "1001" added, no error. *)
Example load_transformed_scenario_E :
  load_transformed_data_to_postgresql
    (Some [cleaned (VStr "2002") (VStr "2024-03-05") (VInt 7) (VInt 9);
           cleaned (VStr "1001") (VStr "2024-01-31") (VInt 10) (VInt 15)])
    [row_2002]
  = ([row_2002;
      cleaned (VStr "1001") (VStr "2024-01-31") (VInt 10) (VInt 15)],
     Ok ()).
Proof. by_evaluation. Qed.

Lemma to_datetime_strftime_order_date_witness :
  valid_date 2024 1 31 = true
  ∧ to_datetime_strftime (VStr "31/01/2024") = VStr "2024-01-31".
Proof.
  split; [reflexivity|].
  exact (proj1 to_datetime_strftime_order_date 2024 1 31 eq_refl).
Defined.

Lemma astype_int_str_truncates_witness :
  astype_int_str (VFloat (10017 # 10)) = Ok (VStr "1001")
  ∧ (transform_data [order_1001_7]
       = Ok (Some [cleaned (VStr "1001") (VStr "2024-01-31")
                     (VInt 10) (VInt 15)])
     ∧ order_1001_7 ∈ rows (pd_DataFrame [order_1001_7])
     ∧ isna (cell order_1001_7 "Cost") = false
     ∧ isna (cell order_1001_7 "Sales") = false
     ∧ cell order_1001_7 "Order_Number" = VFloat (10017 # 10))
  ∧ ∃ r',
      r' ∈ [cleaned (VStr "1001") (VStr "2024-01-31") (VInt 10) (VInt 15)]
      ∧ r' !! "Order_Number" = Some (VStr (py_str (trunc (10017 # 10)))).
Proof.
  assert (H1 : transform_data [order_1001_7]
       = Ok (Some [cleaned (VStr "1001") (VStr "2024-01-31")
                     (VInt 10) (VInt 15)])) by by_evaluation.
  assert (H2 : order_1001_7 ∈ rows (pd_DataFrame [order_1001_7]))
    by by_evaluation.
  assert (H3 : isna (cell order_1001_7 "Cost") = false)
    by (vm_compute; reflexivity).
  assert (H4 : isna (cell order_1001_7 "Sales") = false)
    by (vm_compute; reflexivity).
  assert (H5 : cell order_1001_7 "Order_Number" = VFloat (10017 # 10))
    by by_evaluation.
  split; [exact (proj1 astype_int_str_truncates (10017 # 10))|].
  split; [exact (conj H1 (conj H2 (conj H3 (conj H4 H5))))|].
  exact (proj1 (proj2 (proj2 astype_int_str_truncates)) _ _ _ _
           H1 H2 H3 H4 H5).
Defined.

(** * Further properties *)

(** ** More of the transform stage *)

(** X1. With an Order_Date column, the transform stage raises KeyError
    when Cost, Sales or Order_Number is not a column of the staged batch:
    at line 87 one KeyError that names Cost, Sales or both, whichever of
    them are missing; at line 94, when both are there, the KeyError of
    Order_Number. *)
Theorem transform_data_missing_column_cases (staged : list record) :
  has_column "Order_Date" (pd_DataFrame staged) = true →
  (has_column "Cost" (pd_DataFrame staged) = false →
   has_column "Sales" (pd_DataFrame staged) = true →
   transform_data staged = Raise (KeyError ["Cost"]))
  ∧ (has_column "Cost" (pd_DataFrame staged) = false →
     has_column "Sales" (pd_DataFrame staged) = false →
     transform_data staged = Raise (KeyError ["Cost"; "Sales"]))
  ∧ (has_column "Cost" (pd_DataFrame staged) = true →
     has_column "Sales" (pd_DataFrame staged) = false →
     transform_data staged = Raise (KeyError ["Sales"]))
  ∧ (has_column "Cost" (pd_DataFrame staged) = true →
     has_column "Sales" (pd_DataFrame staged) = true →
     has_column "Order_Number" (pd_DataFrame staged) = false →
     transform_data staged = Raise (KeyError ["Order_Number"])).
Proof.
  intros Hd. rewrite transform_data_cases. cbv zeta. rewrite Hd.
  simpl negb. cbv iota.
  split; [by intros -> ->|]. split; [by intros -> ->|].
  split; [by intros -> ->|by intros -> -> ->].
Qed.

(** X2. The transform stage returns without output exactly when the
    staged batch has no Order_Date column (the empty batch included).  When
    it raises on a batch of plain keys, the error is the KeyError of line
    87 that names the missing ones of Cost and Sales, or the KeyError of a
    missing Order_Number column, or the ValueError of a row that reached
    line 94 with an Order_Number [int] does not take; it raises nothing
    else. *)
Theorem transform_data_results (staged : list record) :
  plain_keys (pd_DataFrame staged) = true →
  (transform_data staged = Ok None
   ↔ has_column "Order_Date" (pd_DataFrame staged) = false)
  ∧ ∀ e, transform_data staged = Raise e →
      (e = KeyError (List.filter
                       (λ c, negb (has_column c (pd_DataFrame staged)))
                       ["Cost"; "Sales"])
       ∧ (has_column "Cost" (pd_DataFrame staged) = false
          ∨ has_column "Sales" (pd_DataFrame staged) = false))
      ∨ (e = KeyError ["Order_Number"]
         ∧ has_column "Order_Number" (pd_DataFrame staged) = false)
      ∨ ∃ r msg, e = ValueError msg
          ∧ r ∈ kept_rows (pd_DataFrame staged)
          ∧ py_int (cell r "Order_Number") = Raise e.
Proof.
  intros _. rewrite transform_data_cases. cbv zeta. cbn [List.filter].
  destruct (has_column "Order_Date" _); simpl negb; cbv iota;
    [|split; [done|discriminate]].
  destruct (has_column "Cost" _), (has_column "Sales" _);
    simpl negb; cbv iota;
    try (split; [split; discriminate|intros e [= <-]; left; auto]).
  destruct (has_column "Order_Number" _); simpl negb; cbv iota;
    [|split; [split; discriminate|intros e [= <-]; right; by left]].
  destruct (traverse _ _) as [out|e0] eqn:E; cbn [bind];
    [split; [split; discriminate|discriminate]|].
  split; [split; discriminate|]. intros e [= <-]. right. right.
  assert (∃ r, r ∈ kept_rows (pd_DataFrame staged)
               ∧ clean_row (columns (pd_DataFrame staged)) r = Raise e0)
    as (r & Hr & Hc).
  { clear -E. induction (kept_rows (pd_DataFrame staged)) as [|r l IH];
      [discriminate|].
    simpl in E. destruct (clean_row _ r) as [r'|e1] eqn:E1; cbn [bind] in E.
    - destruct (traverse _ l) as [out|e2]; cbn [bind] in E; [discriminate|].
      destruct IH as (r2 & ? & ?); [done|]. exists r2. split; [by right|done].
    - injection E as <-. exists r. split; [by left|done]. }
  destruct (clean_row_raise _ _ _ Hc) as (Hp & msg & ->).
  by exists r, msg.
Qed.

Lemma signed_inv {A : Type} (body : string → option A) (neg : A → A) s a :
  signed body neg s = Some a →
  ∃ s' a', body s' = Some a' ∧ (a = a' ∨ a = neg a').
Proof.
  unfold signed. intros H.
  destruct s as [|c s']; [by exists "", a; auto|].
  destruct (Ascii.eqb c "-") eqn:E1.
  { apply Ascii.eqb_eq in E1 as ->.
    destruct (body s') as [a'|] eqn:E; [|discriminate].
    injection H as <-. exists s', a'. auto. }
  destruct (Ascii.eqb c "+") eqn:E2.
  { apply Ascii.eqb_eq in E2 as ->. exists s', a. auto. }
  exists (String c s'), a. split; [|by left].
  destruct c as [[] [] [] [] [] [] [] []]; try done; discriminate.
Qed.

Lemma unsigned_number_number s v :
  unsigned_number s = Some v → is_Some (number v).
Proof.
  unfold unsigned_number.
  destruct (span_digits 0 0 s) as [[ip ni] r1].
  destruct (match r1 with
            | String "." r => (true, span_digits ip 0 r)
            | _ => (false, (ip, 0%nat, r1))
            end) as [point [[m nf] r2]].
  destruct (ni + nf =? 0)%nat; [discriminate|].
  destruct r2 as [|c r3].
  - intros [= <-]. by destruct point.
  - destruct (Ascii.eqb c "e" || Ascii.eqb c "E"); [|discriminate].
    destruct (signed exponent_digits Z.opp r3); [|discriminate].
    by intros [= <-].
Qed.

(** [to_numeric] leaves NaN or a number, never a string. *)
Lemma to_numeric_number v :
  to_numeric v = VNull ∨ is_Some (number (to_numeric v)).
Proof.
  destruct v as [|z|q|s]; simpl; [by left|by right|by right|].
  destruct (number_of_string s) as [w|] eqn:E; simpl; [|by left].
  right. unfold number_of_string in E.
  apply signed_inv in E as (s' & w' & Hw & [->| ->]).
  - by apply unsigned_number_number in Hw.
  - apply unsigned_number_number in Hw as [x Hx].
    destruct w'; simpl in *; try discriminate; by eexists.
Qed.

Lemma strptime_dmy_valid s y m d :
  strptime_dmy s = Some (y, m, d) → valid_date y m d = true.
Proof.
  unfold strptime_dmy.
  destruct (split_on "/" s) as [|td [|tm [|ty [|? ?]]]]; try discriminate.
  destruct (day_or_month true 31 td) as [d'|]; [|discriminate].
  destruct (day_or_month false 12 tm) as [m'|]; [|discriminate].
  destruct (year_digits ty) as [y'|]; [|discriminate]. simpl.
  destruct (valid_date y' m' d') eqn:E; [|discriminate].
  by intros [= <- <- <-].
Qed.

(** The date conversion leaves NaN or the text of a date of the calendar. *)
Lemma to_datetime_strftime_date v :
  to_datetime_strftime v = VNull
  ∨ ∃ y m d, valid_date y m d = true
      ∧ to_datetime_strftime v
        = VStr (pad4 y +:+ "-" +:+ pad2 m +:+ "-" +:+ pad2 d).
Proof.
  destruct v as [|z|q|s]; simpl; try by left.
  destruct (strptime_dmy s) as [[[y m] d]|] eqn:E; simpl; [|by left].
  right. exists y, m, d. split; [|done]. by apply strptime_dmy_valid in E.
Qed.

(** X3. In every record the transform stage puts out, Cost and Sales are
    NaN or a number, never a string, and Order_Date is NaN or the
    year-month-day text of a date of the calendar: no raw text of these
    three columns reaches the destination. *)
Theorem transform_data_output_cells (staged out : list record) (r' : record) :
  transform_data staged = Ok (Some out) → r' ∈ out →
  (cell r' "Cost" = VNull ∨ is_Some (number (cell r' "Cost")))
  ∧ (cell r' "Sales" = VNull ∨ is_Some (number (cell r' "Sales")))
  ∧ (cell r' "Order_Date" = VNull
     ∨ ∃ y m d, valid_date y m d = true
         ∧ cell r' "Order_Date"
           = VStr (pad4 y +:+ "-" +:+ pad2 m +:+ "-" +:+ pad2 d)).
Proof.
  intros Ht Hr'.
  destruct (transform_data_Some _ _ Ht) as (_ & _ & Hout).
  apply traverse_Forall2 in Hout.
  destruct (proj1 (list_elem_of_lookup _ _) Hr') as [i Hi].
  destruct (Forall2_lookup_r _ _ _ _ _ Hout Hi) as (r & _ & Hclean).
  destruct (clean_row_cells _ _ _ Hclean) as (-> & -> & -> & _).
  split; [apply to_numeric_number|].
  split; [apply to_numeric_number|apply to_datetime_strftime_date].
Qed.

Lemma pd_DataFrame_dom data (r : record) :
  r ∈ rows (pd_DataFrame data) → dom r = columns (pd_DataFrame data).
Proof.
  intros Hr. simpl in Hr. apply list_elem_of_fmap in Hr as (r1 & -> & Hr1).
  rewrite dom_union_L, dom_gset_to_gmap. apply set_eq. intros c.
  rewrite elem_of_union. split; [intros [Hc|Hc]; [|done]|by right].
  apply elem_of_columns_pd_DataFrame. exists r1.
  split; [done|]. by apply elem_of_dom.
Qed.

Lemma fillna_defaults_NoDup : NoDup fillna_defaults.*1.
Proof. apply (bool_decide_unpack _). vm_compute. exact I. Qed.

Lemma fold_fillna_cell cols defaults (r : record) c d :
  NoDup defaults.*1 → (c, d) ∈ defaults → c ∈ cols →
  cell (fold_left (fillna_row cols) defaults r) c = fill d (cell r c).
Proof.
  revert r. induction defaults as [|[c' d'] defaults IH]; intros r Hnd Hin Hc.
  { by apply elem_of_nil in Hin. }
  rewrite fmap_cons in Hnd. apply NoDup_cons in Hnd as [Hnotin Hnd].
  cbn [fold_left]. apply elem_of_cons in Hin as [[= <- <-]|Hin].
  - unfold cell at 1. rewrite fold_fillna_lookup by done.
    unfold fillna_row. rewrite bool_decide_true by done.
    by rewrite lookup_insert_eq.
  - assert (c' ≠ c) as Hne.
    { intros ->. apply Hnotin. apply list_elem_of_fmap. by exists (c, d). }
    rewrite IH by done. f_equal. unfold fillna_row.
    case_bool_decide; [|done]. by apply cell_insert_ne.
Qed.

Lemma fillna_defaults_notna c d v :
  (c, d) ∈ fillna_defaults → isna (fill d v) = false.
Proof.
  intros H. unfold fill. destruct (isna v) eqn:E; [|done].
  unfold fillna_defaults in H.
  repeat (apply elem_of_cons in H as [[= -> ->]|H]); try done.
  by apply elem_of_nil in H.
Qed.

Lemma clean_row_default cols r r' c d :
  clean_row cols r = Ok r' →
  (c, d) ∈ fillna_defaults → c ≠ "Assigned_Supervisor" → c ∈ cols →
  cell r' c = fill d (cell r c).
Proof.
  unfold clean_row. cbv zeta.
  destruct (astype_int_str _) as [v|e]; cbn [bind]; [|discriminate].
  intros <-%Ok_inj Hin Hne Hc.
  assert (Hcs : c ≠ "Order_Date" ∧ c ≠ "Cost" ∧ c ≠ "Sales"
                ∧ c ≠ "Order_Number" ∧ c ≠ "Assigned Supervisor").
  { clear -Hin Hne. unfold fillna_defaults in Hin.
    repeat (apply elem_of_cons in Hin as [[= -> ->]|Hin]); try done.
    by apply elem_of_nil in Hin. }
  destruct Hcs as (H1 & H2 & H3 & H4 & H5).
  rewrite (fold_fillna_cell _ _ _ c d fillna_defaults_NoDup Hin).
  - f_equal. unfold normalize_row, sales_row, cost_row, date_row.
    rewrite !cell_insert_ne by done. rewrite cell_rename_row by done.
    by rewrite cell_insert_ne.
  - unfold renamed_columns. case_bool_decide; [|done].
    apply elem_of_union. right. apply elem_of_difference. split; [done|].
    by rewrite elem_of_singleton.
Qed.

Lemma clean_row_supervisor cols (r r' : record) :
  clean_row cols r = Ok r' →
  "Assigned Supervisor" ∈ cols → is_Some (r !! "Assigned Supervisor") →
  r' !! "Assigned Supervisor" = None
  ∧ cell r' "Assigned_Supervisor"
    = fill (VStr "Unknown") (cell r "Assigned Supervisor").
Proof.
  unfold clean_row. cbv zeta.
  destruct (astype_int_str _) as [v|e]; cbn [bind]; [|discriminate].
  intros <-%Ok_inj Hc [w Hw].
  assert (Hn : normalize_row cols r !! "Assigned Supervisor" = None
               ∧ cell (normalize_row cols r) "Assigned_Supervisor" = w).
  { assert (Hrk : rename_row cols (date_row r)
                   = <["Assigned_Supervisor" := w]>
                       (delete "Assigned Supervisor" (date_row r))).
    { unfold rename_row. rewrite bool_decide_true by done.
      unfold rename_key, date_row. by rewrite lookup_insert_ne, Hw. }
    unfold normalize_row, sales_row, cost_row. rewrite Hrk. split.
    - rewrite !lookup_insert_ne by done. apply lookup_delete_eq.
    - rewrite !cell_insert_ne by done. apply cell_insert_eq. }
  destruct Hn as [Hn1 Hn2]. split.
  - rewrite fold_fillna_lookup
      by (apply (bool_decide_unpack _); vm_compute; exact I).
    by rewrite lookup_insert_ne.
  - rewrite (fold_fillna_cell _ _ _ "Assigned_Supervisor" (VStr "Unknown")
               fillna_defaults_NoDup).
    + rewrite cell_insert_ne by done. rewrite Hn2. unfold cell. by rewrite Hw.
    + apply (bool_decide_unpack _). vm_compute. exact I.
    + unfold renamed_columns. rewrite bool_decide_true by done.
      apply elem_of_union. left. by apply elem_of_singleton.
Qed.

(** X4. The records put out are, one for one, the kept rows with their
    defaults: for each defaulted label other than Assigned_Supervisor that
    is a column of the batch, the output holds the staged value, or the
    default of lines 97-108 where the staged value was NaN, and so never
    NaN. *)
Theorem transform_data_fills_defaults (staged out : list record) :
  transform_data staged = Ok (Some out) →
  Forall2
    (λ r r', ∀ c d,
       (c, d) ∈ fillna_defaults → c ≠ "Assigned_Supervisor" →
       c ∈ columns (pd_DataFrame staged) →
       cell r' c = fill d (cell r c) ∧ isna (cell r' c) = false)
    (kept_rows (pd_DataFrame staged)) out.
Proof.
  intros Ht. destruct (transform_data_Some _ _ Ht) as (_ & _ & Hout).
  apply traverse_Forall2 in Hout.
  eapply Forall2_impl; [exact Hout|]. intros r r' Hclean c d Hin Hne Hc.
  rewrite (clean_row_default _ _ _ _ _ Hclean Hin Hne Hc).
  split; [done|]. by eapply fillna_defaults_notna.
Qed.

(** X5. When the batch has a column "Assigned Supervisor" and none named
    "Assigned_Supervisor" already, no record put out has the field
    "Assigned Supervisor": each holds under "Assigned_Supervisor" the value
    staged under "Assigned Supervisor", or "Unknown" where that was NaN
    (lines 84 and 107 together). *)
Theorem transform_data_renames_supervisor (staged out : list record) :
  transform_data staged = Ok (Some out) →
  "Assigned Supervisor" ∈ columns (pd_DataFrame staged) →
  "Assigned_Supervisor" ∉ columns (pd_DataFrame staged) →
  Forall2
    (λ r r',
       r' !! "Assigned Supervisor" = None
       ∧ cell r' "Assigned_Supervisor"
         = fill (VStr "Unknown") (cell r "Assigned Supervisor"))
    (kept_rows (pd_DataFrame staged)) out.
Proof.
  intros Ht Hc _. destruct (transform_data_Some _ _ Ht) as (_ & _ & Hout).
  apply traverse_Forall2 in Hout.
  apply Forall2_same_length_lookup. split; [by eapply Forall2_length|].
  intros i r r' Hi Hi'.
  destruct (Forall2_lookup_l _ _ _ _ _ Hout Hi) as (r2 & Hi2 & Hclean).
  assert (r2 = r') as -> by congruence.
  apply (clean_row_supervisor _ _ _ Hclean Hc).
  apply elem_of_dom. rewrite (pd_DataFrame_dom staged r); [done|].
  eapply elem_of_sublist; [|apply kept_rows_sublist].
  by eapply list_elem_of_lookup_2.
Qed.

(** ** More of the staging stage *)

Lemma load_data_to_mysql_Ok extracted table table' new_data :
  load_data_to_mysql extracted table = Ok (table', new_data) →
  has_column "Order_Number" (pd_DataFrame extracted) = true
  ∧ new_data = not_staged table (rows (pd_DataFrame extracted))
  ∧ table' = table ++ new_data.
Proof.
  destruct (has_column "Order_Number" (pd_DataFrame extracted)) eqn:Hc.
  - rewrite (load_data_to_mysql_ok _ _ Hc). cbv zeta. by intros [= <- <-].
  - unfold load_data_to_mysql. rewrite Hc. discriminate.
Qed.

Lemma not_staged_nil_covers table l (r : record) :
  not_staged table l = [] → r ∈ l →
  isin (cell r "Order_Number") (order_numbers table) = true.
Proof.
  intros Hnil Hr.
  destruct (isin (cell r "Order_Number") (order_numbers table)) eqn:E;
    [done|].
  assert (r ∈ not_staged table l) as Hin by by apply not_staged_elem.
  rewrite Hnil in Hin. by apply elem_of_nil in Hin.
Qed.

(** X6. After the staging stage has run, the staging table holds the
    Order_Number of every row of the batch, and staging the same batch
    again stages nothing and leaves the table as it is. *)
Theorem load_data_to_mysql_covers_batch
    (extracted table table' new_data : list record) :
  load_data_to_mysql extracted table = Ok (table', new_data) →
  (∀ r, r ∈ rows (pd_DataFrame extracted) →
     isin (cell r "Order_Number") (order_numbers table') = true)
  ∧ load_data_to_mysql extracted table' = Ok (table', []).
Proof.
  intros (Hc & -> & ->)%load_data_to_mysql_Ok.
  pose proof (not_staged_again table (rows (pd_DataFrame extracted))) as Hnil.
  split.
  - intros r Hr. by apply (not_staged_nil_covers _ _ _ Hnil).
  - rewrite (load_data_to_mysql_ok _ _ Hc). cbv zeta.
    by rewrite Hnil, app_nil_r.
Qed.

Lemma filter_all {A : Type} (P : A → bool) (l : list A) :
  (∀ a, a ∈ l → P a = true) → List.filter P l = l.
Proof.
  induction l as [|a l IH]; intros H; simpl; [done|].
  rewrite (H a) by by left. f_equal. apply IH. intros; apply H. by right.
Qed.

Lemma filter_none {A : Type} (P : A → bool) (l : list A) :
  (∀ a, a ∈ l → P a = false) → List.filter P l = [].
Proof.
  induction l as [|a l IH]; intros H; simpl; [done|].
  rewrite (H a) by by left. apply IH. intros; apply H. by right.
Qed.

(** X7. The staging stage compares a batch with the table only, not with
    itself.  When none of the batch's keys is in the table the whole batch
    is staged, in order, also rows that repeat a key of the batch; when all
    of them are in the table nothing is staged and the table is left as it
    is. *)
Theorem load_data_to_mysql_compares_with_table_only
    (extracted table : list record) :
  has_column "Order_Number" (pd_DataFrame extracted) = true →
  ((∀ r, r ∈ rows (pd_DataFrame extracted) →
      isin (cell r "Order_Number") (order_numbers table) = false) →
   load_data_to_mysql extracted table
   = Ok (table ++ rows (pd_DataFrame extracted),
         rows (pd_DataFrame extracted)))
  ∧ ((∀ r, r ∈ rows (pd_DataFrame extracted) →
        isin (cell r "Order_Number") (order_numbers table) = true) →
     load_data_to_mysql extracted table = Ok (table, [])).
Proof.
  intros Hc. rewrite (load_data_to_mysql_ok _ _ Hc). cbv zeta.
  unfold not_staged. split; intros H.
  - by rewrite filter_all by (intros r Hr; by rewrite (H r Hr)).
  - rewrite filter_none by (intros r Hr; by rewrite (H r Hr)).
    by rewrite app_nil_r.
Qed.

(** ** More of the upsert stage *)

Lemma bind_params_dom params (r row : record) :
  bind_params params r = Ok row → dom row = list_to_set params.
Proof.
  revert row. induction params as [|p params IH]; intros row; simpl.
  - intros [= <-]. apply dom_empty_L.
  - destruct (r !! p) as [v|]; [|discriminate].
    destruct (bind_params params r) as [bound|]; cbn [bind]; [|discriminate].
    intros [= <-]. by rewrite dom_insert_L, (IH bound).
Qed.

Lemma bind_params_Raise params (r : record) e :
  bind_params params r = Raise e →
  ∃ p, e = StatementError p ∧ p ∈ params ∧ r !! p = None.
Proof.
  revert e. induction params as [|p params IH]; intros e; simpl;
    [discriminate|].
  destruct (r !! p) eqn:E.
  - destruct (bind_params params r) as [|e']; cbn [bind]; [discriminate|].
    intros [= <-]. destruct (IH e') as (q & -> & Hq & Hn); [done|].
    exists q. split; [done|]. split; [by right|done].
  - intros [= <-]. exists p. split; [done|]. split; [by left|done].
Qed.

Lemma conflicts_app k t1 t2 :
  conflicts k (t1 ++ t2) = conflicts k t1 || conflicts k t2.
Proof. unfold conflicts. apply existsb_app. Qed.

Lemma execute_upsert_covers row table table' :
  execute_upsert row table = Ok table' →
  isna (cell row "Order_Number") = false →
  conflicts (cell row "Order_Number") table' = true.
Proof.
  unfold execute_upsert.
  destruct (bind_params upsert_params row) as [offered|] eqn:Eb;
    cbn [bind]; [|discriminate].
  assert (Hk : cell offered "Order_Number" = cell row "Order_Number").
  { unfold cell. by rewrite (bind_params_lookup _ _ _ "Order_Number" Eb)
      by (left; reflexivity). }
  rewrite Hk.
  destruct (conflicts (cell row "Order_Number") table) eqn:Ec;
    intros [= <-] Hna; [done|].
  rewrite conflicts_app, Ec. unfold conflicts. cbn [existsb].
  rewrite Hk. unfold sql_eq. by rewrite Hna, value_eqb_refl.
Qed.

(** When the loop ends without an error, every key it was given is in
    the table. *)
Lemma iterrows_execute_covers l table table' (r : record) :
  iterrows_execute l table = (table', Ok ()) → r ∈ l →
  isna (cell r "Order_Number") = false →
  conflicts (cell r "Order_Number") table' = true.
Proof.
  revert table. induction l as [|r1 l IH]; intros table Hrun Hr Hna;
    [by apply elem_of_nil in Hr|].
  simpl in Hrun.
  destruct (execute_upsert r1 table) as [t1|e] eqn:E1; [|discriminate].
  apply elem_of_cons in Hr as [->|Hr]; [|by apply (IH t1)].
  pose proof (execute_upsert_covers _ _ _ E1 Hna) as Hc.
  destruct (iterrows_execute_prefix l t1) as (added & Hp & _).
  rewrite Hrun in Hp. simpl in Hp. subst table'.
  by rewrite conflicts_app, Hc.
Qed.

(** A batch all of whose keys are in the table leaves the table alone. *)
Lemma iterrows_execute_all_conflicts l table :
  (∀ r, r ∈ l →
     (∀ p, p ∈ upsert_params → is_Some (r !! p))
     ∧ conflicts (cell r "Order_Number") table = true) →
  iterrows_execute l table = (table, Ok ()).
Proof.
  induction l as [|r l IH]; intros H; [done|]. simpl.
  destruct (H r) as [Hp Hc]; [by left|].
  unfold execute_upsert.
  destruct (bind_params_ok upsert_params r Hp) as (offered & -> & Ho).
  cbn [bind]. unfold cell at 1.
  rewrite (Ho "Order_Number") by (left; reflexivity).
  fold (cell r "Order_Number"). rewrite Hc.
  apply IH. intros r' Hr'. apply H. by right.
Qed.

Lemma iterrows_execute_bound l table :
  (∀ r, r ∈ l → ∀ p, p ∈ upsert_params → is_Some (r !! p)) →
  ((iterrows_execute l table).2) = Ok ().
Proof.
  revert table. induction l as [|r l IH]; intros table H; [done|]. simpl.
  unfold execute_upsert.
  destruct (bind_params_ok upsert_params r) as (offered & -> & _);
    [apply H; by left|].
  cbn [bind]. apply IH. intros r' Hr'. apply H. by right.
Qed.

Lemma iterrows_execute_length l table :
  (length (iterrows_execute l table).1 ≤ length table + length l)%nat.
Proof.
  revert table. induction l as [|r l IH]; intros table; simpl; [lia|].
  unfold execute_upsert.
  destruct (bind_params upsert_params r) as [offered|]; cbn [bind];
    [|simpl; lia].
  destruct (conflicts (cell offered "Order_Number") table).
  - specialize (IH table). lia.
  - specialize (IH (table ++ [offered])). rewrite length_app in IH.
    simpl in IH. lia.
Qed.

Lemma frame_rows_bound data (r : record) p :
  r ∈ rows (pd_DataFrame data) → p ∈ columns (pd_DataFrame data) →
  is_Some (r !! p).
Proof.
  intros Hr Hp. apply elem_of_dom. by rewrite (pd_DataFrame_dom data r).
Qed.

(** X8. When the records pushed by the transform stage are not empty and
    lack a column for one of the 14 parameters of the statement, the upsert
    stage raises at its first row for a parameter that has no column, and
    the destination is left as it was. *)
Theorem load_transformed_missing_parameter
    (transformed table : list record) (r : record) (p : string) :
  r ∈ transformed → p ∈ upsert_params →
  p ∉ columns (pd_DataFrame transformed) →
  ∃ q, q ∈ upsert_params ∧ (q ∉ columns (pd_DataFrame transformed))
    ∧ load_transformed_data_to_postgresql (Some transformed) table
      = (table, Raise (StatementError q)).
Proof.
  intros Hr Hp Hmiss. unfold load_transformed_data_to_postgresql, xcom_frame.
  simpl default.
  destruct (rows (pd_DataFrame transformed)) as [|r1 l] eqn:El.
  { simpl in El. apply fmap_nil_inv in El. subst. by apply elem_of_nil in Hr. }
  assert (Hr1 : r1 ∈ rows (pd_DataFrame transformed)) by (rewrite El; left).
  simpl. unfold execute_upsert.
  destruct (bind_params upsert_params r1) as [offered|e] eqn:Eb; cbn [bind].
  - exfalso. apply Hmiss.
    assert (Hin : p ∈ dom r1).
    { apply elem_of_dom. rewrite <- (bind_params_lookup _ _ _ _ Eb Hp).
      apply elem_of_dom. rewrite (bind_params_dom _ _ _ Eb).
      by apply elem_of_list_to_set. }
    by rewrite (pd_DataFrame_dom _ _ Hr1) in Hin.
  - apply bind_params_Raise in Eb as (q & -> & Hq & Hn).
    exists q. split; [done|]. split; [|done].
    apply not_elem_of_dom in Hn.
    by rewrite (pd_DataFrame_dom _ _ Hr1) in Hn.
Qed.

(** X9. When the records have a column for each of the 14 parameters, the
    upsert stage ends without an error, adds at most one row per record
    after the rows the destination had, and afterwards the destination has
    a row under the Order_Number of every record whose Order_Number is not
    NaN. *)
Theorem load_transformed_inserts_every_key
    (transformed table : list record) :
  (∀ p, p ∈ upsert_params → p ∈ columns (pd_DataFrame transformed)) →
  ∃ added,
    load_transformed_data_to_postgresql (Some transformed) table
      = (table ++ added, Ok ())
    ∧ (length added ≤ length transformed)%nat
    ∧ ∀ r, r ∈ transformed → isna (cell r "Order_Number") = false →
        conflicts (cell r "Order_Number") (table ++ added) = true.
Proof.
  intros Hcols. unfold load_transformed_data_to_postgresql, xcom_frame.
  simpl default.
  set (l := rows (pd_DataFrame transformed)).
  assert (Hok : ((iterrows_execute l table).2) = Ok ()).
  { apply iterrows_execute_bound. intros r Hr p Hp.
    apply (frame_rows_bound transformed); [done|by apply Hcols]. }
  destruct (iterrows_execute_prefix l table) as (added & Hp & Hadd).
  destruct (iterrows_execute l table) as [t' o] eqn:E. simpl in *. subst.
  exists added. split; [done|]. split.
  - pose proof (iterrows_execute_length l table) as Hlen.
    rewrite E in Hlen. simpl in Hlen. rewrite length_app in Hlen.
    unfold l in Hlen. simpl in Hlen. rewrite length_fmap in Hlen. lia.
  - intros r Hr Hna.
    assert (Hr' : r ∪ gset_to_gmap VNull (columns (pd_DataFrame transformed))
                  ∈ l).
    { unfold l. simpl. apply list_elem_of_fmap. by exists r. }
    pose proof (iterrows_execute_covers _ _ _ _ E Hr') as Hc.
    rewrite cell_pad in Hc. by apply Hc.
Qed.

(** X10. Running the upsert stage a second time on the same records,
    when they have the 14 columns and no NaN key, ends without an error
    and leaves the destination as the first run left it. *)
Theorem load_transformed_twice (transformed table : list record) :
  (∀ p, p ∈ upsert_params → p ∈ columns (pd_DataFrame transformed)) →
  (∀ r, r ∈ transformed → isna (cell r "Order_Number") = false) →
  load_transformed_data_to_postgresql (Some transformed)
    (load_transformed_data_to_postgresql (Some transformed) table).1
  = ((load_transformed_data_to_postgresql (Some transformed) table).1,
     Ok ()).
Proof.
  intros Hcols Hna. unfold load_transformed_data_to_postgresql, xcom_frame.
  simpl default.
  set (l := rows (pd_DataFrame transformed)).
  assert (Hb : ∀ r, r ∈ l → ∀ p, p ∈ upsert_params → is_Some (r !! p)).
  { intros r Hr p Hp.
    apply (frame_rows_bound transformed); [done|by apply Hcols]. }
  pose proof (iterrows_execute_bound l table Hb) as Hok.
  destruct (iterrows_execute l table) as [t' o] eqn:E. simpl in Hok.
  subst o. cbn [fst].
  apply iterrows_execute_all_conflicts. intros r Hr. split; [by apply Hb|].
  apply (iterrows_execute_covers _ _ _ _ E Hr).
  unfold l in Hr. simpl in Hr.
  apply list_elem_of_fmap in Hr as (r1 & -> & Hr1).
  rewrite cell_pad. by apply Hna.
Qed.

(** ** More of the run *)

(** X11. The staging stage writes before the transform stage runs: when
    the transform stage raises, the run fails with that error, the batch
    is in the staging table and the destination is untouched; a second run
    on the same file then stages nothing and ends without an error and
    without a row for the destination. *)
Theorem run_pipeline_transform_failure
    (extracted : list record) (st : stores)
    (table' new_data : list record) (e : exn) :
  load_data_to_mysql extracted (staging st) = Ok (table', new_data) →
  transform_data new_data = Raise e →
  run_pipeline extracted st
    = ({| staging := table'; destination := destination st |}, Raise e)
  ∧ run_pipeline extracted
      {| staging := table'; destination := destination st |}
    = ({| staging := table'; destination := destination st |}, Ok ()).
Proof.
  intros Hl Ht. split.
  - unfold run_pipeline. by rewrite Hl, Ht.
  - apply load_data_to_mysql_Ok in Hl as (Hc & -> & ->).
    unfold run_pipeline. cbn [staging destination].
    rewrite (load_data_to_mysql_ok _ _ Hc). cbv beta iota zeta.
    rewrite not_staged_again, app_nil_r.
    by rewrite transform_data_nil, load_transformed_None.
Qed.

(** X12. Whatever its outcome, a run only appends: the staging table
    keeps its rows and gets rows of the batch whose key it did not hold,
    the destination keeps its rows and gets rows that bind exactly the 14
    parameters of the statement. *)
Theorem run_pipeline_only_appends (extracted : list record) (st : stores) :
  ∃ staged added,
    staging (run_pipeline extracted st).1 = staging st ++ staged
    ∧ destination (run_pipeline extracted st).1 = destination st ++ added
    ∧ (∀ r, r ∈ staged →
         r ∈ rows (pd_DataFrame extracted)
         ∧ isin (cell r "Order_Number") (order_numbers (staging st)) = false)
    ∧ ∀ row, row ∈ added → dom row = list_to_set upsert_params.
Proof.
  unfold run_pipeline.
  destruct (load_data_to_mysql extracted (staging st)) as [[t new_data]|e]
    eqn:El.
  - apply load_data_to_mysql_Ok in El as (Hc & -> & ->).
    set (new_data := not_staged _ _).
    assert (Hnew : ∀ r, r ∈ new_data →
              r ∈ rows (pd_DataFrame extracted)
              ∧ isin (cell r "Order_Number") (order_numbers (staging st))
                = false).
    { intros r Hr. by apply not_staged_elem. }
    destruct (transform_data new_data) as [transformed|e].
    + destruct (iterrows_execute_prefix (rows (xcom_frame transformed))
                  (destination st)) as (added & Hp & Ha).
      unfold load_transformed_data_to_postgresql.
      destruct (iterrows_execute _ _) as [t o]. simpl in Hp. subst t.
      exists new_data, added. cbn [fst staging destination].
      split; [done|]. split; [done|]. split; [done|].
      intros row Hrow. destruct (Ha row Hrow) as (r & _ & Hb).
      by apply bind_params_dom in Hb.
    + exists new_data, []. cbn [fst staging destination].
      rewrite app_nil_r. split; [done|]. split; [done|]. split; [done|].
      intros row Hrow. by apply elem_of_nil in Hrow.
  - exists [], []. cbn [fst]. rewrite !app_nil_r.
    split; [done|]. split; [done|].
    split; intros ? H; by apply elem_of_nil in H.
Qed.

Lemma plain_keys_elem df r :
  plain_keys df = true → r ∈ rows df →
  plain_key (cell r "Order_Number") = true.
Proof.
  unfold plain_keys. rewrite forallb_forall. intros H Hr.
  by apply H, list_elem_of_In.
Qed.

Lemma plain_key_in_int64 v z :
  plain_key v = true → py_int v = Ok z → in_int64 z = true.
Proof.
  unfold plain_key. intros H Hz. rewrite Hz in H.
  by apply andb_true_iff in H as [_ H].
Qed.

Lemma py_int_value_eqb_Ok v w z :
  value_eqb v w = true → py_int w = Ok z → py_int v = Ok z.
Proof.
  destruct v as [|a|p|s], w as [|b|q|t]; simpl; try discriminate.
  - by intros ->%Z.eqb_eq.
  - intros H%Qeq_bool_iff [= <-]. fold (trunc q).
    by rewrite <- (trunc_Qeq _ _ H), trunc_inject_Z.
  - intros H%Qeq_bool_iff [= <-]. fold (trunc p).
    by rewrite (trunc_Qeq _ _ H), trunc_inject_Z.
  - intros H%Qeq_bool_iff [= <-]. fold (trunc p) (trunc q).
    by rewrite (trunc_Qeq _ _ H).
  - by intros ->%String.eqb_eq.
Qed.

(** Rows taken from a frame make the same frame again. *)
Lemma pd_DataFrame_of_rows data (l : list record) (r : record) :
  (∀ x, x ∈ l → x ∈ rows (pd_DataFrame data)) → r ∈ l →
  columns (pd_DataFrame l) = columns (pd_DataFrame data)
  ∧ rows (pd_DataFrame l) = l.
Proof.
  intros Hl Hr.
  assert (Hh : homogeneous l).
  { intros r1 r2 H1 H2.
    by rewrite (pd_DataFrame_dom data r1), (pd_DataFrame_dom data r2)
      by by apply Hl. }
  split; [|by apply homogeneous_rows].
  rewrite (homogeneous_columns l r Hh Hr).
  apply pd_DataFrame_dom. by apply Hl.
Qed.

Lemma transform_data_None staged :
  transform_data staged = Ok None ↔
  has_column "Order_Date" (pd_DataFrame staged) = false.
Proof.
  rewrite transform_data_cases. cbv zeta.
  destruct (has_column "Order_Date" _); simpl negb; cbv iota; [|done].
  destruct (has_column "Cost" _); simpl negb; cbv iota;
    [|split; discriminate].
  destruct (has_column "Sales" _); simpl negb; cbv iota;
    [|split; discriminate].
  destruct (has_column "Order_Number" _); simpl negb; cbv iota;
    [|split; discriminate].
  destruct (traverse _ _); cbn [bind]; split; discriminate.
Qed.

(** X13. When a run ends without an error on a batch of plain keys with
    an Order_Date column, every row of the batch that was not staged before
    and has a Cost and a Sales is delivered: its Order_Number is an integer
    of 64 bits for [int], and the destination has a row under the text of
    that integer after the run. *)
Theorem run_pipeline_delivers
    (extracted : list record) (st st1 : stores) (r : record) :
  plain_keys (pd_DataFrame extracted) = true →
  run_pipeline extracted st = (st1, Ok ()) →
  has_column "Order_Date" (pd_DataFrame extracted) = true →
  r ∈ rows (pd_DataFrame extracted) →
  isin (cell r "Order_Number") (order_numbers (staging st)) = false →
  isna (cell r "Cost") = false → isna (cell r "Sales") = false →
  ∃ z, py_int (cell r "Order_Number") = Ok z
       ∧ in_int64 z = true
       ∧ conflicts (VStr (py_str z)) (destination st1) = true.
Proof.
  intros Hplain Hrun Hd Hr Hnew Hc Hs. unfold run_pipeline in Hrun.
  destruct (load_data_to_mysql extracted (staging st)) as [[t new_data]|e]
    eqn:El; [|discriminate].
  apply load_data_to_mysql_Ok in El as (Hcol & -> & ->).
  set (new_data := not_staged _ _) in *.
  assert (Hrn : r ∈ new_data) by by apply not_staged_elem.
  destruct (pd_DataFrame_of_rows extracted new_data r) as [Hcols Hrows];
    [intros x Hx; unfold new_data in Hx;
     by apply not_staged_elem in Hx as [? _]|done|].
  destruct (transform_data new_data) as [[out|]|e] eqn:Et; [| |discriminate].
  2:{ apply transform_data_None in Et. unfold has_column in Et, Hd.
      rewrite Hcols in Et. congruence. }
  destruct (load_transformed_data_to_postgresql (Some out) (destination st))
    as [table o] eqn:Eu.
  injection Hrun as <- ->. cbn [destination].
  destruct (transform_data_survives new_data out r Et) as
    (r0 & r' & Hk & E & Hclean & Hr'); [by rewrite Hrows|done|done|].
  destruct (clean_row_cells _ _ _ Hclean) as (_ & _ & _ & z & Hz & Hkey).
  assert (Hint : py_int (cell r "Order_Number") = Ok z).
  { apply (py_int_value_eqb_Ok _ (cell r0 "Order_Number")); [|done].
    apply (row_eqb_cell _ r r0 "Order_Number" E).
    apply has_column_elem. by apply transform_data_Some in Et as (_ & ? & _). }
  exists z. split; [exact Hint|]. split.
  - exact (plain_key_in_int64 _ _ (plain_keys_elem _ _ Hplain Hr) Hint).
  - unfold load_transformed_data_to_postgresql, xcom_frame in Eu.
    simpl default in Eu.
    assert (Hin : r' ∪ gset_to_gmap VNull (columns (pd_DataFrame out))
                  ∈ rows (pd_DataFrame out)).
    { simpl. apply list_elem_of_fmap. by exists r'. }
    pose proof (iterrows_execute_covers _ _ _ _ Eu Hin) as Hcov.
    rewrite cell_pad in Hcov. unfold cell in Hcov. rewrite Hkey in Hcov.
    by apply Hcov.
Qed.

(** ** The canonical key *)

Lemma lstrip_no_space s : no_space s = true → lstrip s = s.
Proof.
  destruct s as [|c s]; simpl; [done|].
  rewrite andb_true_iff, negb_true_iff. by intros [-> _].
Qed.

Lemma rev_app_rev_app s t u :
  String.rev_app (String.rev_app s t) u = String.rev_app t (s +:+ u).
Proof.
  revert t u. induction s as [|c s IH]; intros t u; simpl; [done|].
  by rewrite IH.
Qed.

Lemma no_space_rev_app s t :
  no_space (String.rev_app s t) = no_space s && no_space t.
Proof.
  revert t. induction s as [|c s IH]; intros t; simpl; [done|].
  rewrite IH. simpl. by destruct (is_whitespace c), (no_space s).
Qed.

Lemma append_empty_r s : s +:+ "" = s.
Proof.
  induction s as [|c s IH]; [done|].
  change (String c (s +:+ "") = String c s). by rewrite IH.
Qed.

Lemma strip_no_space s : no_space s = true → strip s = s.
Proof.
  intros H. unfold strip, String.rev. rewrite (lstrip_no_space s H).
  rewrite lstrip_no_space
    by (rewrite no_space_rev_app, H; reflexivity).
  rewrite rev_app_rev_app. cbn [String.rev_app]. apply append_empty_r.
Qed.

Lemma pretty_N_char_digit n :
  (n < 10)%N →
  digit_of (pretty_N_char n) = Some (Z.of_N n)
  ∧ is_whitespace (pretty_N_char n) = false.
Proof.
  intros Hn.
  assert (n = 0 ∨ n = 1 ∨ n = 2 ∨ n = 3 ∨ n = 4 ∨ n = 5 ∨ n = 6 ∨ n = 7
          ∨ n = 8 ∨ n = 9)%N as H by lia.
  repeat (destruct H as [->|H]); try (subst n); by vm_compute.
Qed.

(** The digits [pretty_N_go] writes in front of [s] are read back. *)
Lemma int_digits_pretty_N_go x :
  (0 < x)%N →
  ∃ k, 0 ≤ k ∧ ∀ acc b s,
    int_digits acc b (pretty_N_go x s)
    = int_digits (acc * 10 ^ k + Z.of_N x) true s.
Proof.
  induction (N.lt_wf_0 x) as [x _ IH]. intros Hx.
  destruct (pretty_N_char_digit (x `mod` 10)%N) as [Hd _];
    [by apply N.mod_lt|].
  assert (Hdm : Z.of_N x
                = 10 * Z.of_N (x `div` 10) + Z.of_N (x `mod` 10)).
  { rewrite (N.div_mod x 10) at 1 by done. lia. }
  destruct (decide (x `div` 10 = 0)%N) as [Hz|Hz].
  - exists 1. split; [lia|]. intros acc b s.
    rewrite pretty_N_go_step, Hz, pretty_N_go_0 by done.
    cbn [int_digits]. rewrite Hd. f_equal. rewrite Hdm, Hz, Z.pow_1_r. lia.
  - destruct (IH (x `div` 10)%N) as (k & Hk & Hgo);
      [by apply N.div_lt|by apply N.neq_0_lt_0|].
    exists (k + 1). split; [lia|]. intros acc b s.
    rewrite pretty_N_go_step, Hgo by done.
    cbn [int_digits]. rewrite Hd. f_equal.
    rewrite Hdm, Z.pow_add_r, Z.pow_1_r by lia. lia.
Qed.

Lemma no_space_pretty_N_go x s :
  no_space (pretty_N_go x s) = no_space s.
Proof.
  revert s. induction (N.lt_wf_0 x) as [x _ IH]. intros s.
  destruct (decide (x = 0)%N) as [->|Hx]; [by rewrite pretty_N_go_0|].
  rewrite pretty_N_go_step by lia. rewrite IH by (apply N.div_lt; lia).
  simpl. destruct (pretty_N_char_digit (x `mod` 10)%N) as [_ ->];
    [by apply N.mod_lt|done].
Qed.

(** What [pretty_N_go] writes starts with a digit. *)
Lemma pretty_N_go_head x s :
  (0 < x)%N →
  ∃ c rest, pretty_N_go x s = String c rest ∧ is_Some (digit_of c).
Proof.
  revert s. induction (N.lt_wf_0 x) as [x _ IH]. intros s Hx.
  rewrite pretty_N_go_step by done.
  destruct (decide (x `div` 10 = 0)%N) as [Hz|Hz].
  - rewrite Hz, pretty_N_go_0. eexists _, _. split; [done|].
    destruct (pretty_N_char_digit (x `mod` 10)%N) as [-> _];
      [by apply N.mod_lt|done].
  - apply IH; [by apply N.div_lt|by apply N.neq_0_lt_0].
Qed.

Lemma signed_digit {A : Type} (body : string → option A) neg c rest :
  is_Some (digit_of c) →
  signed body neg (String c rest) = body (String c rest).
Proof.
  intros [d Hd]. unfold signed.
  destruct c as [[] [] [] [] [] [] [] []]; try done; discriminate.
Qed.

Lemma signed_minus {A : Type} (body : string → option A) neg s :
  signed body neg (String "-" s) = neg <$> body s.
Proof. reflexivity. Qed.

Lemma int_of_string_pretty_pos p :
  int_digits 0 false (pretty_N_go (N.pos p) "") = Some (Z.pos p).
Proof.
  destruct (int_digits_pretty_N_go (N.pos p)) as (k & _ & ->); [lia|].
  simpl. done.
Qed.

(** [int(str(z))] is [z]. *)
Lemma int_of_string_py_str z : int_of_string (py_str z) = Some z.
Proof.
  unfold int_of_string, py_str, pretty, pretty_Z.
  destruct z as [|p|p]; [done| |].
  - unfold pretty, pretty_positive, pretty, pretty_N.
    rewrite decide_False by done.
    rewrite strip_no_space by by rewrite no_space_pretty_N_go.
    destruct (pretty_N_go_head (N.pos p) "") as (c & rest & Heq & Hc);
      [lia|].
    rewrite Heq, signed_digit by done. rewrite <- Heq.
    apply int_of_string_pretty_pos.
  - unfold pretty, pretty_positive, pretty, pretty_N.
    rewrite decide_False by done.
    change ("-" +:+ ?s) with (String "-" s).
    rewrite strip_no_space
      by (cbn [no_space]; by rewrite no_space_pretty_N_go).
    rewrite signed_minus. by rewrite int_of_string_pretty_pos.
Qed.

Lemma pretty_N_char_plain n :
  (n < 10)%N → plain_char (pretty_N_char n) = true.
Proof.
  intros Hn.
  assert (n = 0 ∨ n = 1 ∨ n = 2 ∨ n = 3 ∨ n = 4 ∨ n = 5 ∨ n = 6 ∨ n = 7
          ∨ n = 8 ∨ n = 9)%N as H by lia.
  repeat (destruct H as [->|H]); try (subst n); by vm_compute.
Qed.

Lemma plain_text_pretty_N_go x s :
  plain_text (pretty_N_go x s) = plain_text s.
Proof.
  revert s. induction (N.lt_wf_0 x) as [x _ IH]. intros s.
  destruct (decide (x = 0)%N) as [->|Hx]; [by rewrite pretty_N_go_0|].
  rewrite pretty_N_go_step by lia. rewrite IH by (apply N.div_lt; lia).
  cbn [plain_text]. by rewrite pretty_N_char_plain by by apply N.mod_lt.
Qed.

(** The text of an integer is plain, and a plain key when the integer is
    one of 64 bits. *)
Lemma plain_text_py_str z : plain_text (py_str z) = true.
Proof.
  unfold py_str, pretty, pretty_Z.
  destruct z as [|p|p]; [done| |].
  - unfold pretty, pretty_positive, pretty, pretty_N.
    rewrite decide_False by done. by rewrite plain_text_pretty_N_go.
  - unfold pretty, pretty_positive, pretty, pretty_N.
    rewrite decide_False by done.
    change ("-" +:+ ?s) with (String "-" s).
    cbn [plain_text]. by rewrite plain_text_pretty_N_go.
Qed.

Lemma plain_key_py_str z :
  in_int64 z = true → plain_key (VStr (py_str z)) = true.
Proof.
  intros Hz. unfold plain_key. cbn [py_int].
  by rewrite plain_text_py_str, int_of_string_py_str, Hz.
Qed.

(** X14. The key written by line 94 for a plain key is canonical: it is a
    plain key itself, coercing it again gives the same text, and two plain
    Order_Numbers get the same text exactly when [int] gives the same
    integer for both. *)
Theorem astype_int_str_canonical (v w : value) :
  plain_key v = true →
  astype_int_str v = Ok w →
  plain_key w = true
  ∧ astype_int_str w = Ok w
  ∧ ∀ v' w', plain_key v' = true → astype_int_str v' = Ok w' →
      (w = w' ↔ py_int v = py_int v').
Proof.
  intros Hp. unfold astype_int_str.
  destruct (py_int v) as [z|] eqn:Ez; cbn [bind]; [|discriminate].
  intros [= <-]. split; [|split].
  - apply plain_key_py_str. by apply (plain_key_in_int64 v).
  - simpl. by rewrite int_of_string_py_str.
  - intros v' w' _. destruct (py_int v') as [z'|]; cbn [bind]; [|discriminate].
    intros [= <-]. split.
    + intros [= H]. apply (inj pretty) in H. by subst.
    + by intros [= ->].
Qed.

(** ** Repeated records *)

Lemma drop_seen_all_seen cols seen l :
  (∀ r, r ∈ l → existsb (row_eqb cols r) seen = true) →
  drop_seen cols seen l = [].
Proof.
  induction l as [|r l IH]; intros H; simpl; [done|].
  rewrite (H r) by by left. apply IH. intros; apply H. by right.
Qed.

Lemma drop_seen_app cols seen l1 l2 :
  drop_seen cols seen (l1 ++ l2)
  = drop_seen cols seen l1
    ++ drop_seen cols (reverse (drop_seen cols seen l1) ++ seen) l2.
Proof.
  revert seen. induction l1 as [|r l1 IH]; intros seen; simpl; [done|].
  destruct (existsb (row_eqb cols r) seen); [apply IH|].
  rewrite IH. simpl. by rewrite reverse_cons, <- app_assoc.
Qed.

Lemma columns_app_subset (l l' : list record) :
  (∀ r, r ∈ l' → r ∈ l) →
  columns (pd_DataFrame (l ++ l')) = columns (pd_DataFrame l).
Proof.
  intros Hsub. apply set_eq. intros c.
  rewrite !elem_of_columns_pd_DataFrame. split.
  - intros (r & Hr & Hc). exists r. split; [|done].
    apply elem_of_app in Hr as [?|?]; auto.
  - intros (r & Hr & Hc). exists r. split; [|done].
    apply elem_of_app. by left.
Qed.

Lemma kept_rows_app_subset (l l' : list record) :
  (∀ r, r ∈ l' → r ∈ l) →
  kept_rows (pd_DataFrame (l ++ l')) = kept_rows (pd_DataFrame l).
Proof.
  intros Hsub. unfold kept_rows. rewrite (columns_app_subset _ _ Hsub).
  apply (f_equal (List.filter (notna_all ["Cost"; "Sales"]))).
  assert (Hrows : rows (pd_DataFrame (l ++ l'))
            = rows (pd_DataFrame l)
              ++ ((λ r : record,
                     r ∪ gset_to_gmap VNull (columns (pd_DataFrame l)))
                  <$> l')).
  { change (rows (pd_DataFrame (l ++ l')))
      with ((λ r : record,
               r ∪ gset_to_gmap VNull (columns (pd_DataFrame (l ++ l'))))
            <$> (l ++ l')).
    by rewrite (columns_app_subset _ _ Hsub), fmap_app. }
  rewrite Hrows, drop_seen_app.
  rewrite (drop_seen_all_seen _ (reverse _ ++ [])); [by rewrite app_nil_r|].
  intros r Hr. apply list_elem_of_fmap in Hr as (r1 & -> & Hr1).
  destruct (drop_seen_representative
              (elements (columns (pd_DataFrame l))) []
              (rows (pd_DataFrame l))
              (r1 ∪ gset_to_gmap VNull (columns (pd_DataFrame l))))
    as (r0 & [H0|H0] & E).
  - simpl. apply list_elem_of_fmap. exists r1. split; [done|by apply Hsub].
  - by apply elem_of_nil in H0.
  - apply existsb_exists. exists r0. split; [|done].
    apply list_elem_of_In, elem_of_app. left. by apply elem_of_reverse.
Qed.

(** X15. Records that are in the batch already change nothing: with them
    appended, the transform stage gives the same result, output or error,
    as without them (line 78 drops the repeated rows). *)
Theorem transform_data_repeated_records (l l' : list record) :
  (∀ r, r ∈ l' → r ∈ l) →
  transform_data (l ++ l') = transform_data l.
Proof.
  intros Hsub. rewrite !transform_data_cases. cbv zeta.
  unfold has_column.
  by rewrite (columns_app_subset _ _ Hsub), (kept_rows_app_subset _ _ Hsub).
Qed.

(** ** The further theorems at concrete batches *)

Lemma transform_data_missing_column_cases_witness :
  (has_column "Order_Date" (pd_DataFrame [dated_only]) = true
   ∧ has_column "Cost" (pd_DataFrame [dated_only]) = false
   ∧ has_column "Sales" (pd_DataFrame [dated_only]) = false)
  ∧ transform_data [dated_only] = Raise (KeyError ["Cost"; "Sales"]).
Proof.
  assert (H1 : has_column "Order_Date" (pd_DataFrame [dated_only]) = true)
    by (vm_compute; reflexivity).
  assert (H2 : has_column "Cost" (pd_DataFrame [dated_only]) = false)
    by (vm_compute; reflexivity).
  assert (H3 : has_column "Sales" (pd_DataFrame [dated_only]) = false)
    by (vm_compute; reflexivity).
  split; [exact (conj H1 (conj H2 H3))|].
  exact (proj1 (proj2 (transform_data_missing_column_cases [dated_only] H1))
           H2 H3).
Defined.

Lemma transform_data_results_witness :
  (plain_keys (pd_DataFrame [order_abc; order_1001]) = true
   ∧ transform_data [order_abc; order_1001]
     = Raise (ValueError "invalid literal for int() with base 10"))
  ∧ ((ValueError "invalid literal for int() with base 10"
        = KeyError (List.filter
                      (λ c, negb (has_column c
                                    (pd_DataFrame [order_abc; order_1001])))
                      ["Cost"; "Sales"])
      ∧ (has_column "Cost" (pd_DataFrame [order_abc; order_1001]) = false
         ∨ has_column "Sales" (pd_DataFrame [order_abc; order_1001]) = false))
     ∨ (ValueError "invalid literal for int() with base 10"
          = KeyError ["Order_Number"]
        ∧ has_column "Order_Number" (pd_DataFrame [order_abc; order_1001])
          = false)
     ∨ ∃ r msg,
         ValueError "invalid literal for int() with base 10" = ValueError msg
         ∧ r ∈ kept_rows (pd_DataFrame [order_abc; order_1001])
         ∧ py_int (cell r "Order_Number")
           = Raise (ValueError "invalid literal for int() with base 10")).
Proof.
  assert (Hp : plain_keys (pd_DataFrame [order_abc; order_1001]) = true)
    by (vm_compute; reflexivity).
  assert (H : transform_data [order_abc; order_1001]
    = Raise (ValueError "invalid literal for int() with base 10"))
    by by_evaluation.
  split; [exact (conj Hp H)|].
  exact (proj2 (transform_data_results [order_abc; order_1001] Hp) _ H).
Defined.

Lemma transform_data_output_cells_witness :
  (transform_data [order_text_cost; order_1001]
     = Ok (Some [cleaned_1006; cleaned_1001])
   ∧ cleaned_1006 ∈ [cleaned_1006; cleaned_1001])
  ∧ (cell cleaned_1006 "Cost" = VNull
     ∨ is_Some (number (cell cleaned_1006 "Cost")))
  ∧ (cell cleaned_1006 "Sales" = VNull
     ∨ is_Some (number (cell cleaned_1006 "Sales")))
  ∧ (cell cleaned_1006 "Order_Date" = VNull
     ∨ ∃ y m d, valid_date y m d = true
         ∧ cell cleaned_1006 "Order_Date"
           = VStr (pad4 y +:+ "-" +:+ pad2 m +:+ "-" +:+ pad2 d)).
Proof.
  assert (H1 : transform_data [order_text_cost; order_1001]
     = Ok (Some [cleaned_1006; cleaned_1001])) by by_evaluation.
  assert (H2 : cleaned_1006 ∈ [cleaned_1006; cleaned_1001])
    by apply list_elem_of_here.
  split; [exact (conj H1 H2)|].
  exact (transform_data_output_cells _ _ _ H1 H2).
Defined.

Lemma transform_data_fills_defaults_witness :
  transform_data [order_text_cost; order_1001]
    = Ok (Some [cleaned_1006; cleaned_1001])
  ∧ Forall2
      (λ r r', ∀ c d,
         (c, d) ∈ fillna_defaults → c ≠ "Assigned_Supervisor" →
         c ∈ columns (pd_DataFrame [order_text_cost; order_1001]) →
         cell r' c = fill d (cell r c) ∧ isna (cell r' c) = false)
      (kept_rows (pd_DataFrame [order_text_cost; order_1001]))
      [cleaned_1006; cleaned_1001].
Proof.
  assert (H1 : transform_data [order_text_cost; order_1001]
     = Ok (Some [cleaned_1006; cleaned_1001])) by by_evaluation.
  split; [exact H1|]. exact (transform_data_fills_defaults _ _ H1).
Defined.

Lemma transform_data_renames_supervisor_witness :
  (transform_data [order_text_cost; order_1001]
     = Ok (Some [cleaned_1006; cleaned_1001])
   ∧ "Assigned Supervisor"
     ∈ columns (pd_DataFrame [order_text_cost; order_1001])
   ∧ "Assigned_Supervisor"
     ∉ columns (pd_DataFrame [order_text_cost; order_1001]))
  ∧ Forall2
      (λ r r',
         r' !! "Assigned Supervisor" = None
         ∧ cell r' "Assigned_Supervisor"
           = fill (VStr "Unknown") (cell r "Assigned Supervisor"))
      (kept_rows (pd_DataFrame [order_text_cost; order_1001]))
      [cleaned_1006; cleaned_1001].
Proof.
  assert (H1 : transform_data [order_text_cost; order_1001]
     = Ok (Some [cleaned_1006; cleaned_1001])) by by_evaluation.
  assert (H2 : "Assigned Supervisor"
               ∈ columns (pd_DataFrame [order_text_cost; order_1001]))
    by by_evaluation.
  assert (H3 : "Assigned_Supervisor"
               ∉ columns (pd_DataFrame [order_text_cost; order_1001]))
    by by_evaluation.
  split; [exact (conj H1 (conj H2 H3))|].
  exact (transform_data_renames_supervisor _ _ H1 H2 H3).
Defined.

Lemma load_data_to_mysql_covers_batch_witness :
  load_data_to_mysql [order_1001; order_1002] [order_1001]
    = Ok ([order_1001; order_1002], [order_1002])
  ∧ (∀ r, r ∈ rows (pd_DataFrame [order_1001; order_1002]) →
       isin (cell r "Order_Number")
         (order_numbers [order_1001; order_1002]) = true)
  ∧ load_data_to_mysql [order_1001; order_1002] [order_1001; order_1002]
    = Ok ([order_1001; order_1002], []).
Proof.
  assert (H : load_data_to_mysql [order_1001; order_1002] [order_1001]
    = Ok ([order_1001; order_1002], [order_1002])) by by_evaluation.
  split; [exact H|]. exact (load_data_to_mysql_covers_batch _ _ _ _ H).
Defined.

Lemma load_data_to_mysql_compares_with_table_only_witness :
  (has_column "Order_Number" (pd_DataFrame [order_1001; order_1001_again])
     = true
   ∧ ∀ r, r ∈ rows (pd_DataFrame [order_1001; order_1001_again]) →
       isin (cell r "Order_Number") (order_numbers [order_2002]) = false)
  ∧ load_data_to_mysql [order_1001; order_1001_again] [order_2002]
    = Ok ([order_2002] ++ rows (pd_DataFrame [order_1001; order_1001_again]),
          rows (pd_DataFrame [order_1001; order_1001_again])).
Proof.
  assert (H1 : has_column "Order_Number"
                 (pd_DataFrame [order_1001; order_1001_again]) = true)
    by (vm_compute; reflexivity).
  assert (H2 : ∀ r, r ∈ rows (pd_DataFrame [order_1001; order_1001_again]) →
       isin (cell r "Order_Number") (order_numbers [order_2002]) = false).
  { apply Forall_forall. by_evaluation. }
  split; [exact (conj H1 H2)|].
  exact (proj1 (load_data_to_mysql_compares_with_table_only _ _ H1) H2).
Defined.

Lemma load_transformed_missing_parameter_witness :
  (key_only ∈ [key_only] ∧ "State_Code" ∈ upsert_params
   ∧ "State_Code" ∉ columns (pd_DataFrame [key_only]))
  ∧ ∃ q, q ∈ upsert_params ∧ (q ∉ columns (pd_DataFrame [key_only]))
      ∧ load_transformed_data_to_postgresql (Some [key_only]) [row_2002]
        = ([row_2002], Raise (StatementError q)).
Proof.
  assert (H1 : key_only ∈ [key_only]) by apply list_elem_of_here.
  assert (H2 : "State_Code" ∈ upsert_params) by by_evaluation.
  assert (H3 : "State_Code" ∉ columns (pd_DataFrame [key_only]))
    by by_evaluation.
  split; [exact (conj H1 (conj H2 H3))|].
  exact (load_transformed_missing_parameter _ [row_2002] _ _ H1 H2 H3).
Defined.

Lemma load_transformed_inserts_every_key_witness :
  (∀ p, p ∈ upsert_params →
     p ∈ columns (pd_DataFrame [cleaned_1006; cleaned_1001]))
  ∧ ∃ added,
      load_transformed_data_to_postgresql
        (Some [cleaned_1006; cleaned_1001]) [row_2002]
      = ([row_2002] ++ added, Ok ())
      ∧ (length added ≤ length [cleaned_1006; cleaned_1001])%nat
      ∧ ∀ r, r ∈ [cleaned_1006; cleaned_1001] →
          isna (cell r "Order_Number") = false →
          conflicts (cell r "Order_Number") ([row_2002] ++ added) = true.
Proof.
  assert (H : ∀ p, p ∈ upsert_params →
     p ∈ columns (pd_DataFrame [cleaned_1006; cleaned_1001])).
  { apply Forall_forall. by_evaluation. }
  split; [exact H|].
  exact (load_transformed_inserts_every_key _ [row_2002] H).
Defined.

Lemma load_transformed_twice_witness :
  ((∀ p, p ∈ upsert_params →
      p ∈ columns (pd_DataFrame [cleaned_1006; cleaned_1001]))
   ∧ ∀ r, r ∈ [cleaned_1006; cleaned_1001] →
       isna (cell r "Order_Number") = false)
  ∧ load_transformed_data_to_postgresql (Some [cleaned_1006; cleaned_1001])
      (load_transformed_data_to_postgresql
         (Some [cleaned_1006; cleaned_1001]) [row_2002]).1
    = ((load_transformed_data_to_postgresql
          (Some [cleaned_1006; cleaned_1001]) [row_2002]).1, Ok ()).
Proof.
  assert (H1 : ∀ p, p ∈ upsert_params →
     p ∈ columns (pd_DataFrame [cleaned_1006; cleaned_1001])).
  { apply Forall_forall. by_evaluation. }
  assert (H2 : ∀ r, r ∈ [cleaned_1006; cleaned_1001] →
       isna (cell r "Order_Number") = false).
  { apply Forall_forall. by_evaluation. }
  split; [exact (conj H1 H2)|].
  exact (load_transformed_twice _ [row_2002] H1 H2).
Defined.

Lemma run_pipeline_transform_failure_witness :
  (load_data_to_mysql [order_abc] [] = Ok ([order_abc], [order_abc])
   ∧ transform_data [order_abc]
     = Raise (ValueError "invalid literal for int() with base 10"))
  ∧ run_pipeline [order_abc] {| staging := []; destination := [row_2002] |}
    = ({| staging := [order_abc]; destination := [row_2002] |},
       Raise (ValueError "invalid literal for int() with base 10"))
  ∧ run_pipeline [order_abc]
      {| staging := [order_abc]; destination := [row_2002] |}
    = ({| staging := [order_abc]; destination := [row_2002] |}, Ok ()).
Proof.
  assert (H1 : load_data_to_mysql [order_abc] []
               = Ok ([order_abc], [order_abc])) by by_evaluation.
  assert (H2 : transform_data [order_abc]
     = Raise (ValueError "invalid literal for int() with base 10"))
    by by_evaluation.
  split; [exact (conj H1 H2)|].
  exact (run_pipeline_transform_failure [order_abc]
           {| staging := []; destination := [row_2002] |} _ _ _ H1 H2).
Defined.

Lemma run_pipeline_delivers_witness :
  (run_pipeline [order_1001; order_no_cost]
     {| staging := []; destination := [row_2002] |}
   = ({| staging := [order_1001; order_no_cost];
         destination := [row_2002; cleaned_1001] |}, Ok ())
   ∧ plain_keys (pd_DataFrame [order_1001; order_no_cost]) = true
   ∧ has_column "Order_Date" (pd_DataFrame [order_1001; order_no_cost])
     = true
   ∧ order_1001 ∈ rows (pd_DataFrame [order_1001; order_no_cost])
   ∧ isin (cell order_1001 "Order_Number") (order_numbers []) = false
   ∧ isna (cell order_1001 "Cost") = false
   ∧ isna (cell order_1001 "Sales") = false)
  ∧ ∃ z, py_int (cell order_1001 "Order_Number") = Ok z
         ∧ in_int64 z = true
         ∧ conflicts (VStr (py_str z)) [row_2002; cleaned_1001] = true.
Proof.
  assert (H0 : plain_keys (pd_DataFrame [order_1001; order_no_cost]) = true)
    by (vm_compute; reflexivity).
  assert (H1 : run_pipeline [order_1001; order_no_cost]
     {| staging := []; destination := [row_2002] |}
   = ({| staging := [order_1001; order_no_cost];
         destination := [row_2002; cleaned_1001] |}, Ok ()))
    by by_evaluation.
  assert (H2 : has_column "Order_Date"
                 (pd_DataFrame [order_1001; order_no_cost]) = true)
    by (vm_compute; reflexivity).
  assert (H3 : order_1001 ∈ rows (pd_DataFrame [order_1001; order_no_cost]))
    by by_evaluation.
  assert (H4 : isin (cell order_1001 "Order_Number") (order_numbers [])
               = false) by reflexivity.
  assert (H5 : isna (cell order_1001 "Cost") = false)
    by (vm_compute; reflexivity).
  assert (H6 : isna (cell order_1001 "Sales") = false)
    by (vm_compute; reflexivity).
  split;
    [exact (conj H1 (conj H0 (conj H2 (conj H3 (conj H4 (conj H5 H6))))))|].
  exact (run_pipeline_delivers _ _ _ _ H0 H1 H2 H3 H4 H5 H6).
Defined.

Lemma astype_int_str_canonical_witness :
  (plain_key (VStr " +01_001 ") = true
   ∧ astype_int_str (VStr " +01_001 ") = Ok (VStr "1001"))
  ∧ plain_key (VStr "1001") = true
  ∧ astype_int_str (VStr "1001") = Ok (VStr "1001")
  ∧ ∀ v' w', plain_key v' = true → astype_int_str v' = Ok w' →
      (VStr "1001" = w' ↔ py_int (VStr " +01_001 ") = py_int v').
Proof.
  assert (Hp : plain_key (VStr " +01_001 ") = true)
    by (vm_compute; reflexivity).
  assert (H : astype_int_str (VStr " +01_001 ") = Ok (VStr "1001"))
    by by_evaluation.
  split; [exact (conj Hp H)|]. exact (astype_int_str_canonical _ _ Hp H).
Defined.

Lemma transform_data_repeated_records_witness :
  (∀ r, r ∈ [order_1001] → r ∈ [order_1001; order_no_cost])
  ∧ transform_data ([order_1001; order_no_cost] ++ [order_1001])
    = transform_data [order_1001; order_no_cost].
Proof.
  assert (H : ∀ r, r ∈ [order_1001] → r ∈ [order_1001; order_no_cost]).
  { apply Forall_forall. by_evaluation. }
  split; [exact H|]. exact (transform_data_repeated_records _ _ H).
Defined.

Lemma run_pipeline_only_appends_witness :
  ∃ staged added,
    staging (run_pipeline [order_1001; order_2002]
               {| staging := [order_1001]; destination := [row_2002] |}).1
      = [order_1001] ++ staged
    ∧ destination (run_pipeline [order_1001; order_2002]
                     {| staging := [order_1001];
                        destination := [row_2002] |}).1
      = [row_2002] ++ added
    ∧ (∀ r, r ∈ staged →
         r ∈ rows (pd_DataFrame [order_1001; order_2002])
         ∧ isin (cell r "Order_Number") (order_numbers [order_1001]) = false)
    ∧ ∀ row, row ∈ added → dom row = list_to_set upsert_params.
Proof.
  exact (run_pipeline_only_appends [order_1001; order_2002]
           {| staging := [order_1001]; destination := [row_2002] |}).
Defined.
